(** * The tweets application: models, form, views

    A shallow embedding of [tweets/models.py], [tweets/forms.py],
    [tweets/views.py] and [tweets/admin.py], together with the part of the
    web framework these files call into (model fields and their validators,
    [ModelForm] cleaning, [get_or_create], [save], the default ordering of a
    query set, [messages] and [redirect]).

    Conventions.
    - A Python [str] is a [string]; every [ascii] stands for one character
      (a code point below 256), so [String.length] is Python's [len].
    - A timestamp is an integer number of microseconds ([Z]).
    - [None] of Python is [None] of [option].
    - The database is a record of two tables, each a list of rows in
      insertion order.  A handler is a computation in a small state and
      exception monad over the database and the message storage of the
      request. *)

From Stdlib Require Import ZArith Lia Ascii String.
From stdpp Require Import base decidable option list sorting strings.

Local Open Scope string_scope.
Local Open Scope Z_scope.
Local Open Scope list_scope.

(** ** Python string operations used by the code and by the framework *)

Module PyStr.

(** [str.isspace] on one character, for code points below 256:
    TAB, LF, VT, FF, CR, the separators 0x1c-0x1f, SPACE, NEL (0x85) and
    NBSP (0xa0). *)
Definition isspace (c : ascii) : bool :=
  let n := nat_of_ascii c in
  ((9 <=? n) && (n <=? 13))%nat || ((28 <=? n) && (n <=? 32))%nat
  || (n =? 133)%nat || (n =? 160)%nat.

(** [s.lstrip()] *)
Fixpoint lstrip (s : string) : string :=
  match s with
  | EmptyString => EmptyString
  | String c s' => if isspace c then lstrip s' else s
  end.

(** [s.rstrip()] *)
Fixpoint rstrip (s : string) : string :=
  match s with
  | EmptyString => EmptyString
  | String c s' =>
      match rstrip s' with
      | EmptyString => if isspace c then EmptyString else String c EmptyString
      | r => String c r
      end
  end.

(** [s.strip()] *)
Definition strip (s : string) : string := rstrip (lstrip s).

(** [s[:n]] *)
Fixpoint slice_to (n : nat) (s : string) : string :=
  match n, s with
  | O, _ => EmptyString
  | S _, EmptyString => EmptyString
  | S n', String c s' => String c (slice_to n' s')
  end.

(** ["\x00" in s] *)
Fixpoint has_nul (s : string) : bool :=
  match s with
  | EmptyString => false
  | String c s' => (nat_of_ascii c =? 0)%nat || has_nul s'
  end.

(** [c * n] for a one-character string [c] *)
Fixpoint repeat (c : ascii) (n : nat) : string :=
  match n with
  | O => EmptyString
  | S n' => String c (repeat c n')
  end.

(** The first and the last character of [s], when it has one. *)
Definition first_char (s : string) : option ascii :=
  match s with
  | EmptyString => None
  | String c _ => Some c
  end.

Fixpoint last_char (s : string) : option ascii :=
  match s with
  | EmptyString => None
  | String c EmptyString => Some c
  | String _ s' => last_char s'
  end.

(** [s] neither starts nor ends with a whitespace character. *)
Definition trimmed (s : string) : bool :=
  match first_char s, last_char s with
  | Some a, Some b => negb (isspace a) && negb (isspace b)
  | _, _ => true
  end.

End PyStr.

(** ** The data model ([tweets/models.py], [django.contrib.auth.models.User]) *)

(** The columns of [auth_user] the application reads or writes. *)
Record User := mkUser {
  user_id : nat;
  username : string;
  password : string;
  is_active : bool
}.

(** An uploaded file: its name and its size as submitted, and three facts
    that are decided outside the application: whether the image library
    can read its content, whether the extension of its name is one the
    image library lists, and the base name the storage gives the file when
    it is saved (a cleaned form of the name, shortened or followed by a
    suffix when the storage needs it). *)
Record UploadedFile := mkUploadedFile {
  file_name : string;
  file_size : nat;
  file_is_image : bool;
  file_extension_allowed : bool;
  file_stored_as : string
}.

(** The value of an [ImageField] on an instance: a submitted file that is
    not stored yet, or a stored file with its name in the storage. *)
Inductive FieldFile :=
  | PendingFile (upload : UploadedFile)
  | StoredFile (name : string).

(** [file.name] *)
Definition FieldFile_name (f : FieldFile) : string :=
  match f with
  | PendingFile u => file_name u
  | StoredFile n => n
  end.

(** [class Tweet(models.Model)].  [pk] (the implicit [id] column) and
    [created_at] are [None] on an instance that was never saved; [author]
    holds the primary key of the referenced [User] row. *)
Record Tweet := mkTweet {
  pk : option nat;
  text : string;
  image : option FieldFile;
  created_at : option Z;
  author : option nat
}.

Record Database := mkDatabase {
  auth_user : list User;
  tweets_tweet : list Tweet
}.

Definition empty_db : Database := mkDatabase [] [].

#[global] Instance User_eq_dec : EqDecision User.
Proof. solve_decision. Defined.

#[global] Instance UploadedFile_eq_dec : EqDecision UploadedFile.
Proof. solve_decision. Defined.

#[global] Instance FieldFile_eq_dec : EqDecision FieldFile.
Proof. solve_decision. Defined.

#[global] Instance Tweet_eq_dec : EqDecision Tweet.
Proof. solve_decision. Defined.

(** The declarations of the fields of [Tweet], as [models.py] writes them. *)
Inductive ModelField :=
  | CharField (max_length : nat)
  | ImageField (upload_to : string) (blank null : bool)
  | DateTimeField (auto_now_add : bool)
  | ForeignKey (to : string) (null blank : bool).

Definition image_upload_to : string := "tweets/".

Definition Tweet_meta_fields : list (string * ModelField) :=
  [ ("text", CharField 280);
    ("image", ImageField image_upload_to true true);
    ("created_at", DateTimeField true);
    ("author", ForeignKey "User" true true) ].

(** [Field.editable]: a [DateTimeField] with [auto_now_add] is not editable. *)
Definition editable (f : ModelField) : bool :=
  match f with
  | DateTimeField auto => negb auto
  | _ => true
  end.

(** [Field.blank]: [CharField(max_length=280)] keeps the default [False];
    [auto_now_add] forces [blank=True]. *)
Definition blank_of (f : ModelField) : bool :=
  match f with
  | CharField _ => false
  | ImageField _ b _ => b
  | DateTimeField auto => auto
  | ForeignKey _ _ b => b
  end.

(** ** Requests, responses and the handler monad *)

(** [request.POST]: keys may repeat, [get] returns the last value of a key. *)
Definition QueryDict := list (string * string).

Definition FilesDict := list (string * UploadedFile).

(** The parts of a request the handlers can see; [user] is the primary key
    of the authenticated user, [None] for an anonymous request.  No handler
    reads it. *)
Record HttpRequest := mkHttpRequest {
  method : string;
  POST : QueryDict;
  FILES : FilesDict;
  user : option nat
}.

(** [MultiValueDict.get(key)] *)
Fixpoint dict_get {V : Type} (d : list (string * V)) (key : string) : option V :=
  match d with
  | [] => None
  | (k, v) :: d' =>
      match dict_get d' key with
      | Some v' => Some v'
      | None => if String.eqb k key then Some v else None
      end
  end.

(** The codes of the validation errors the framework can attach to a field. *)
Inductive ErrorCode :=
  | required
  | max_length_exceeded
  | null_characters_not_allowed
  | blank
  | invalid
  | empty
  | invalid_image
  | invalid_extension
  | unique.

(** [form.errors]: field name to the errors of that field; a field without
    errors has no entry. *)
Definition ErrorDict := list (string * list ErrorCode).

Inductive Exception :=
  | MultipleObjectsReturned
  | NoReverseMatch
  | IntegrityError
  | ValidationError (errors : ErrorDict).

Inductive Result (A : Type) :=
  | Ok (a : A)
  | Raise (e : Exception).
Arguments Ok {A} a.
Arguments Raise {A} e.

(** Levels of [django.contrib.messages]. *)
Definition SUCCESS : nat := 25.

Record World := mkWorld {
  db : Database;
  messages : list (nat * string)
}.

(** A handler reads and writes the world; an exception ends it and keeps
    what was written before. *)
Definition M (A : Type) : Type := World -> Result A * World.

Definition ret {A} (a : A) : M A := fun w => (Ok a, w).

Definition bind {A B} (m : M A) (k : A -> M B) : M B :=
  fun w => match m w with
           | (Ok a, w') => k a w'
           | (Raise e, w') => (Raise e, w')
           end.

Definition raise {A} (e : Exception) : M A := fun w => (Raise e, w).

(** [try: m except Exception as e: h(e)] *)
Definition catch {A} (m : M A) (h : Exception -> M A) : M A :=
  fun w => match m w with
           | (Ok a, w') => (Ok a, w')
           | (Raise e, w') => h e w'
           end.

Definition get_db : M Database := fun w => (Ok (db w), w).

Definition put_db (d : Database) : M unit :=
  fun w => (Ok tt, mkWorld d (messages w)).

Notation "'let*' x ':=' m 'in' k" := (bind m (fun x => k))
  (at level 10, x name, m at level 100, k at level 200).
Notation "'do' m 'in' k" := (bind m (fun _ => k))
  (at level 10, m at level 100, k at level 200).

(** ** The object-relational layer *)

(** The next value of an auto-increment primary key. *)
Definition next_pk (ids : list nat) : nat := S (foldr Nat.max 0%nat ids).

Definition tweet_pks (d : Database) : list nat :=
  omap pk (tweets_tweet d).

(** [User.objects.filter(username=name)] *)
Definition User_objects_filter (name : string) (d : Database) : list User :=
  filter (fun u => username u = name) (auth_user d).

(** [User.objects.get(username=name)], with [DoesNotExist] as [None]. *)
Definition User_objects_get (name : string) : M (option User) :=
  let* d := get_db in
  match User_objects_filter name d with
  | [] => ret None
  | [u] => ret (Some u)
  | _ :: _ :: _ => raise MultipleObjectsReturned
  end.

(** [User.objects.create(username=name, password=pw, is_active=act)]: the
    database refuses a user name that is taken. *)
Definition User_objects_create (name pw : string) (act : bool) : M User :=
  let* d := get_db in
  if existsb (fun u => bool_decide (username u = name)) (auth_user d)
  then raise IntegrityError
  else
    let u := mkUser (next_pk (map user_id (auth_user d))) name pw act in
    do put_db (mkDatabase (auth_user d ++ [u]) (tweets_tweet d)) in
    ret u.

(** [User.objects.get_or_create(username=name, defaults=...)]: the row
    with that user name when there is one; otherwise a fresh row built from
    the defaults, and, should the database refuse it, the row that took the
    name meanwhile. *)
Definition User_objects_get_or_create
    (name : string) (default_password : string) (default_is_active : bool)
  : M (User * bool) :=
  let* found := User_objects_get name in
  match found with
  | Some u => ret (u, false)
  | None =>
      catch
        (let* u := User_objects_create name default_password default_is_active in
         ret (u, true))
        (fun e =>
           match e with
           | IntegrityError =>
               let* again := User_objects_get name in
               match again with
               | Some u => ret (u, false)
               | None => raise e
               end
           | _ => raise e
           end)
  end.

Definition has_pk (i : nat) (t : Tweet) : bool :=
  bool_decide (pk t = Some i).

(** [FileField.pre_save]: a file that is not stored yet is handed to the
    storage, which saves it in the directory [upload_to] of the field under
    a base name of its choosing. *)
Definition commit_file (f : FieldFile) : FieldFile :=
  match f with
  | PendingFile u => StoredFile (image_upload_to +:+ file_stored_as u)
  | StoredFile _ => f
  end.

(** The foreign key constraint of [tweets_tweet.author_id]: null, or the
    key of a row of [auth_user]. *)
Definition author_exists (d : Database) (a : option nat) : bool :=
  match a with
  | None => true
  | Some uid => existsb (fun u => bool_decide (user_id u = uid)) (auth_user d)
  end.

(** The [INSERT] of [save]: [auto_now_add] sets [created_at] to the current
    time; the database refuses an author that is no row. *)
Definition Tweet_insert (now : Z) (i : nat) (t : Tweet) : M Tweet :=
  let* d := get_db in
  if author_exists d (author t) then
    let t' := mkTweet (Some i) (text t) (commit_file <$> image t) (Some now) (author t) in
    do put_db (mkDatabase (auth_user d) (tweets_tweet d ++ [t'])) in
    ret t'
  else raise IntegrityError.

(** [instance.save()].  An instance without primary key is inserted under
    the next key; one with a key is written over the row of that key, with
    the [created_at] it holds, and inserted when there is no such row.  No
    validator runs; the database refuses ([IntegrityError]) an author that
    is no row and, on the update, a [created_at] that is not set. *)
Definition Tweet_save (now : Z) (t : Tweet) : M Tweet :=
  let* d := get_db in
  match pk t with
  | None => Tweet_insert now (next_pk (tweet_pks d)) t
  | Some i =>
      if existsb (has_pk i) (tweets_tweet d) then
        match created_at t with
        | None => raise IntegrityError
        | Some _ =>
            if author_exists d (author t) then
              let t' := mkTweet (pk t) (text t) (commit_file <$> image t)
                          (created_at t) (author t) in
              do put_db (mkDatabase (auth_user d)
                           (map (fun r => if has_pk i r then t' else r)
                                (tweets_tweet d))) in
              ret t'
            else raise IntegrityError
        end
      else Tweet_insert now i t
  end.

(** An in-memory instance as the constructor [Tweet(text=..., author=...)]
    builds it. *)
Definition Tweet_new (txt : string) (a : option nat) : Tweet :=
  mkTweet None txt None None a.

(** [Tweet.objects.create(text=txt, author=a)] *)
Definition Tweet_objects_create (now : Z) (txt : string) (a : option nat) : M Tweet :=
  Tweet_save now (Tweet_new txt a).

(** [class Meta: ordering = ['-created_at']]: [x] may come before [y]. *)
Definition created_at_desc (x y : Tweet) : Prop :=
  match created_at x, created_at y with
  | Some a, Some b => b <= a
  | Some _, None => True
  | None, Some _ => False
  | None, None => True
  end.

#[global] Instance created_at_desc_dec x y : Decision (created_at_desc x y).
Proof.
  unfold created_at_desc.
  destruct (created_at x), (created_at y); apply _.
Defined.

(** Put a row at its place in a list ordered by [Meta.ordering]: before
    the first row that is not strictly newer. *)
Fixpoint order_insert (t : Tweet) (l : list Tweet) : list Tweet :=
  match l with
  | [] => [t]
  | x :: l' =>
      if decide (created_at_desc t x) then t :: l else x :: order_insert t l'
  end.

(** [Tweet.objects.all()], evaluated: every row, ordered by [Meta.ordering].
    Rows of equal [created_at] come in the order of the table, which is
    what the database returns for them. *)
Definition Tweet_objects_all (d : Database) : list Tweet :=
  foldr order_insert [] (tweets_tweet d).

(** [self.author]: [None], or the row the key refers to; with no such row
    the access raises [DoesNotExist], here the outer [None]. *)
Definition Tweet_author (d : Database) (t : Tweet) : option (option User) :=
  match author t with
  | None => Some None
  | Some uid =>
      match filter (fun u => user_id u = uid) (auth_user d) with
      | u :: _ => Some (Some u)
      | [] => None
      end
  end.

(** [def __str__(self)].  An instance of a model is always true, so the
    test [if self.author] is on [None] alone. *)
Definition Tweet_str_of (a : option User) (t : Tweet) : string :=
  (match a with Some u => username u | None => "Anonymous" end)
    +:+ ": " +:+ PyStr.slice_to 50 (text t) +:+ "...".

Definition Tweet___str__ (d : Database) (t : Tweet) : option string :=
  a ← Tweet_author d t; Some (Tweet_str_of a t).

(** ** Model validation ([Model.full_clean]) *)

(** [models.CharField.clean]: the blank check of [validate], then the
    validators (here the [MaxLengthValidator] that [max_length] installs);
    validators do not run on an empty value.  A model field does not strip
    its value. *)
Definition model_CharField_clean (max_len : nat) (is_blank : bool) (value : string)
  : list ErrorCode :=
  if bool_decide (value = "") then (if is_blank then [] else [blank])
  else if (max_len <? String.length value)%nat then [max_length_exceeded]
  else [].

(** [ForeignKey.validate]: a referenced row must exist. *)
Definition model_ForeignKey_clean (d : Database) (value : option nat) : list ErrorCode :=
  match value with
  | None => []
  | Some uid =>
      if existsb (fun u => bool_decide (user_id u = uid)) (auth_user d) then []
      else [invalid]
  end.

(** [Model.clean_fields] on one field of a [Tweet].  A non-editable field
    passes [validate]; an [ImageField] of the model has no validator. *)
Definition Tweet_clean_field (d : Database) (t : Tweet) (nf : string * ModelField)
  : list ErrorCode :=
  match nf.2 with
  | CharField n => model_CharField_clean n (blank_of nf.2) (text t)
  | ImageField _ _ _ => []
  | DateTimeField _ => []
  | ForeignKey _ _ _ => model_ForeignKey_clean d (author t)
  end.

Definition in_names (name : string) (names : list string) : bool :=
  bool_decide (name ∈ names).

(** [instance.clean_fields(exclude=exclude)]: the errors by field. *)
Definition Tweet_clean_fields (d : Database) (exclude : list string) (t : Tweet)
  : ErrorDict :=
  omap (fun nf : string * ModelField =>
          if in_names nf.1 exclude then None
          else match Tweet_clean_field d t nf with
               | [] => None
               | errs => Some (nf.1, errs)
               end)
       Tweet_meta_fields.

(** [instance.validate_unique(exclude=exclude)]: the only unique field of
    the model is its primary key [id].  The key is checked on an instance
    that is being added ([_state.adding], true of an instance built in
    memory and not saved, false of one loaded from the table or saved) and
    has a key: a row with that key is an error. *)
Definition Tweet_validate_unique (d : Database) (adding : bool)
    (exclude : list string) (t : Tweet) : ErrorDict :=
  if adding && negb (in_names "id" exclude) then
    match pk t with
    | Some i => if existsb (has_pk i) (tweets_tweet d) then [("id", [unique])] else []
    | None => []
    end
  else [].

(** [instance.full_clean(exclude=exclude)] on an instance whose
    [_state.adding] is [adding]: [clean_fields], then [validate_unique]
    (no field of the model that can fail is unique, so its exclusions are
    those given); raises [ValidationError] with the errors when there are
    some.  The model has no [clean] of its own and no constraint. *)
Definition Tweet_full_clean (d : Database) (adding : bool) (exclude : list string)
    (t : Tweet) : Result unit :=
  match Tweet_clean_fields d exclude t ++ Tweet_validate_unique d adding exclude t with
  | [] => Ok tt
  | errs => Raise (ValidationError errs)
  end.

(** ** The form ([tweets/forms.py]) *)

Inductive Widget :=
  | Textarea (attrs : list (string * string))
  | FileInput (attrs : list (string * string)).

Inductive FormField :=
  | forms_CharField (required : bool) (max_length : option nat) (strip : bool)
  | forms_ImageField (required : bool) (max_length : option nat).

Inductive Cleaned :=
  | CleanedStr (s : string)
  | CleanedFile (f : option UploadedFile).

(** [Field.formfield()]: the form field a model field asks for.
    [models.CharField.formfield] passes [max_length] and nothing else, so
    the [forms.CharField] it builds is required (the model field is not
    blank) and keeps the default [strip=True]; the [Textarea] that
    [Meta.widgets] gives changes the widget, not the field.  A file field
    passes its own [max_length], 100 by default, and is required unless the
    model field is blank.  The form fields of a date and of a foreign key
    (a [DateTimeField], a [ModelChoiceField]) are outside this development:
    [None] stands for them, and a form that needs one has no model here. *)
Definition formfield (f : ModelField) : option FormField :=
  match f with
  | CharField n => Some (forms_CharField (negb (blank_of f)) (Some n) true)
  | ImageField _ b _ => Some (forms_ImageField (negb b) (Some 100%nat))
  | DateTimeField _ => None
  | ForeignKey _ _ _ => None
  end.

(** [fields_for_model(model, fields)]: the form fields of the fields of
    the model that [Meta.fields] lists, in the order of the model.  [None]
    when a listed field is not editable (the framework raises [FieldError])
    or has a form field outside this development. *)
Fixpoint fields_for_model (model : list (string * ModelField)) (fields : list string)
  : option (list (string * FormField)) :=
  match model with
  | [] => Some []
  | (name, f) :: model' =>
      if in_names name fields then
        if editable f then
          match formfield f, fields_for_model model' fields with
          | Some ff, Some rest => Some ((name, ff) :: rest)
          | _, _ => None
          end
        else None
      else fields_for_model model' fields
  end.

(** [forms.CharField.clean], that is [to_python], [validate] and
    [run_validators] in this order.  [to_python] turns a missing value into
    the empty string and strips any other value when [strip] is set
    ([value.strip()]); [validate] raises [required] on an empty value of a
    required field; [run_validators] skips an empty value and otherwise
    collects the errors of the [MaxLengthValidator] that [max_length]
    installs and of the [ProhibitNullCharactersValidator] that every
    [forms.CharField] has.  The length is therefore the one of the stripped
    value. *)
Definition forms_CharField_to_python (strip : bool) (value : option string) : string :=
  match value with
  | None => ""
  | Some s => if strip then PyStr.strip s else s
  end.

Definition forms_CharField_clean
    (required_ : bool) (max_len : option nat) (strip : bool) (value : option string)
  : list ErrorCode + string :=
  let v := forms_CharField_to_python strip value in
  if bool_decide (v = "") then (if required_ then inl [required] else inr v)
  else
    let e1 := match max_len with
              | Some n => if (n <? String.length v)%nat then [max_length_exceeded] else []
              | None => []
              end in
    let e2 := if PyStr.has_nul v then [null_characters_not_allowed] else [] in
    match (e1 ++ e2)%list with
    | [] => inr v
    | errs => inl errs
    end.

(** [forms.ImageField.clean]: no file is [None]; [FileField.to_python]
    wants a name within [max_length], a name that is not empty and a file
    that is not empty, [ImageField.to_python] wants content the image
    library can read, and the validator of the field
    ([validate_image_file_extension]) wants an extension the image library
    lists. *)
Definition forms_ImageField_clean
    (required_ : bool) (max_len : option nat) (value : option UploadedFile)
  : list ErrorCode + option UploadedFile :=
  match value with
  | None => if required_ then inl [required] else inr None
  | Some f =>
      if match max_len with
         | Some n => (n <? String.length (file_name f))%nat
         | None => false
         end
      then inl [max_length_exceeded]
      else if bool_decide (file_name f = "") then inl [invalid]
      else if (file_size f =? 0)%nat then inl [empty]
      else if negb (file_is_image f) then inl [invalid_image]
      else if file_extension_allowed f then inr (Some f)
      else inl [invalid_extension]
  end.

(** [field.clean(widget.value_from_datadict(data, files, name))]: a text
    area reads [data], a file input reads [files]. *)
Definition FormField_clean (data : QueryDict) (files : FilesDict)
    (name : string) (ff : FormField) : list ErrorCode + Cleaned :=
  match ff with
  | forms_CharField r n s =>
      match forms_CharField_clean r n s (dict_get data name) with
      | inl e => inl e
      | inr v => inr (CleanedStr v)
      end
  | forms_ImageField r n =>
      match forms_ImageField_clean r n (dict_get files name) with
      | inl e => inl e
      | inr v => inr (CleanedFile v)
      end
  end.

Module TweetForm.

(** [class Meta] *)
Definition Meta_model : list (string * ModelField) := Tweet_meta_fields.

Definition Meta_fields : list string := ["text"; "image"].

Definition Meta_widgets : list (string * Widget) :=
  [ ("text", Textarea [ ("rows", "4"); ("placeholder", "What's happening?");
                        ("maxlength", "280"); ("class", "form-control") ]);
    ("image", FileInput [ ("class", "form-control"); ("accept", "image/*") ]) ].

Definition Meta_labels : list (string * string) :=
  [ ("text", "Tweet"); ("image", "Image (optional)") ].

(** [form.fields]; the two listed fields are editable and have their form
    fields, so the list exists. *)
Definition fields : list (string * FormField) :=
  default [] (fields_for_model Meta_model Meta_fields).

(** A form object: whether it is bound, what it was bound to, and the
    outcome of [full_clean]. *)
Record t := mk {
  is_bound : bool;
  data : QueryDict;
  files : FilesDict;
  errors : ErrorDict;
  cleaned_data : list (string * Cleaned);
  instance : Tweet
}.

(** [_clean_fields]: every field of the form in turn. *)
Fixpoint clean_fields (data_ : QueryDict) (files_ : FilesDict)
    (fs : list (string * FormField)) : ErrorDict * list (string * Cleaned) :=
  match fs with
  | [] => ([], [])
  | (name, ff) :: fs' =>
      let '(errs, cleaned) := clean_fields data_ files_ fs' in
      match FormField_clean data_ files_ name ff with
      | inl e => ((name, e) :: errs, cleaned)
      | inr v => (errs, (name, v) :: cleaned)
      end
  end.

(** [construct_instance]: copy the cleaned value of each field of the form
    to the instance.  A cleaned file of [None] leaves the attribute as it
    is; an uploaded file becomes the file of the instance, not stored
    yet. *)
Definition save_form_data (inst : Tweet) (nv : string * Cleaned) : Tweet :=
  match nv with
  | (name, CleanedStr s) =>
      if String.eqb name "text"
      then mkTweet (pk inst) s (image inst) (created_at inst) (author inst)
      else inst
  | (name, CleanedFile (Some f)) =>
      if String.eqb name "image"
      then mkTweet (pk inst) (text inst) (Some (PendingFile f))
             (created_at inst) (author inst)
      else inst
  | (_, CleanedFile None) => inst
  end.

Definition construct_instance (cleaned : list (string * Cleaned)) (inst : Tweet) : Tweet :=
  foldl save_form_data inst cleaned.

(** [_get_validation_exclusions]: the fields of the model, its primary key
    [id] first, that are not in the form, and those that already failed. *)
Definition validation_exclusions (errs : ErrorDict) : list string :=
  filter (fun name => negb (in_names name (fields.*1)) || in_names name (errs.*1))
         ("id" :: Meta_model.*1).

(** [TweetForm()] *)
Definition unbound : t := mk false [] [] [] [] (Tweet_new "" None).

(** [TweetForm(data, files)] followed by [full_clean]: the fields are
    cleaned, the instance is built from the cleaned values, and the model
    validates the fields that are left ([_post_clean], then
    [validate_unique], both with the same exclusions; the instance is a new
    one). *)
Definition bound (d : Database) (data_ : QueryDict) (files_ : FilesDict) : t :=
  let '(errs, cleaned) := clean_fields data_ files_ fields in
  let inst := construct_instance cleaned (Tweet_new "" None) in
  let model_errs :=
    match Tweet_full_clean d true (validation_exclusions errs) inst with
    | Raise (ValidationError e) => e
    | _ => []
    end in
  mk true data_ files_ (errs ++ model_errs)%list cleaned inst.

(** [form.is_valid()] *)
Definition is_valid (f : t) : bool :=
  is_bound f && bool_decide (errors f = []).

(** [form.save(commit=False)] of a valid form *)
Definition save_commit_false (f : t) : Tweet := instance f.

End TweetForm.

(** ** The handlers ([tweets/views.py]) *)

Inductive Context :=
  | ctx_tweets (tweets : list Tweet)
  | ctx_form (form : TweetForm.t).

(** What a handler returns: a rendered template (status 200) or a redirect
    (status 302). *)
Inductive HttpResponse :=
  | TemplateResponse (template : string) (context : Context)
  | HttpResponseRedirect (url : string).

Definition status_code (r : HttpResponse) : nat :=
  match r with
  | TemplateResponse _ _ => 200
  | HttpResponseRedirect _ => 302
  end.

(** Modelled from the spec: the URL configuration ([urls.py]) is not among
    the sources; the interface table and [test_url_patterns] give the two
    named routes, the list view at [/] and the create view at [/create/]. *)
Definition urlpatterns : list (string * string) :=
  [ ("tweet_list", "/"); ("tweet_create", "/create/") ].

(** [reverse(viewname)] *)
Definition reverse (viewname : string) : option string :=
  snd <$> List.find (fun p => String.eqb p.1 viewname) urlpatterns.

Fixpoint contains_char (c : ascii) (s : string) : bool :=
  match s with
  | EmptyString => false
  | String c' s' => Ascii.eqb c c' || contains_char c s'
  end.

(** [redirect(to)]: the route of that name; a string that names no route
    is taken as a URL when it has a slash or a dot. *)
Definition redirect (to : string) : M HttpResponse :=
  match reverse to with
  | Some url => ret (HttpResponseRedirect url)
  | None =>
      if contains_char "/" to || contains_char "." to
      then ret (HttpResponseRedirect to)
      else raise NoReverseMatch
  end.

(** Modelled from the spec: the templates are not among the sources.  The
    page of the list view shows the pending notices (the scenario of
    section 8 of the spec, and [test_tweet_create_view_post_valid], find the
    success notice on it); a notice that was shown leaves the storage.
    Nothing says that the page of the form shows any. *)
Definition shows_messages (template : string) : bool :=
  String.eqb template "tweets/tweet_list.html".

(** [render(request, template, context)]: the page, and the storage
    without the notices the page showed. *)
Definition render (template : string) (context : Context) : M HttpResponse :=
  fun w => (Ok (TemplateResponse template context),
            if shows_messages template then mkWorld (db w) [] else w).

(** [messages.success(request, message)] *)
Definition messages_success (message : string) : M unit :=
  fun w => (Ok tt, mkWorld (db w) (messages w ++ [(SUCCESS, message)])).

Definition set_author (t : Tweet) (a : option nat) : Tweet :=
  mkTweet (pk t) (text t) (image t) (created_at t) a.

(** [def tweet_list(request)] *)
Definition tweet_list (request : HttpRequest) : M HttpResponse :=
  let* d := get_db in
  let tweets := Tweet_objects_all d in
  render "tweets/tweet_list.html" (ctx_tweets tweets).

(** [def tweet_create(request)]; [now] is the reading of the clock when the
    tweet is saved. *)
Definition tweet_create (now : Z) (request : HttpRequest) : M HttpResponse :=
  let* d := get_db in
  if String.eqb (method request) "POST" then
    let form := TweetForm.bound d (POST request) (FILES request) in
    if TweetForm.is_valid form then
      let tweet := TweetForm.save_commit_false form in
      let* got := User_objects_get_or_create "demo" "demo12345" true in
      let demo_user := got.1 in
      let tweet := set_author tweet (Some (user_id demo_user)) in
      let* saved := Tweet_save now tweet in
      do messages_success "Tweet posted successfully!" in
      redirect "tweet_list"
    else
      render "tweets/tweet_form.html" (ctx_form form)
  else
    let form := TweetForm.unbound in
    render "tweets/tweet_form.html" (ctx_form form).

(** ** The administration site ([tweets/admin.py]) *)

Module TweetAdmin.

Definition list_display : list string := ["text"; "author"; "created_at"; "has_image"].
Definition list_filter : list string := ["created_at"; "author"].
Definition search_fields : list string := ["text"; "author__username"].
Definition readonly_fields : list string := ["created_at"].

(** The fields of the change form: the editable fields of the model that
    are not read-only. *)
Definition change_form_fields : list string :=
  filter (fun n => negb (in_names n readonly_fields))
         (fst <$> filter (fun nf : string * ModelField => editable nf.2) Tweet_meta_fields).

(** [def has_image(self, obj)]: a file is true when its name is not empty. *)
Definition has_image (obj : Tweet) : bool :=
  match image obj with
  | Some f => negb (bool_decide (FieldFile_name f = ""))
  | None => false
  end.

End TweetAdmin.

(** ** Runs of the system *)

(** One request to the application, with the reading of the clock. *)
Inductive Call :=
  | GetList (request : HttpRequest)
  | Create (now : Z) (request : HttpRequest).

Definition handle (c : Call) : M HttpResponse :=
  match c with
  | GetList request => tweet_list request
  | Create now request => tweet_create now request
  end.

(** A sequence of requests, each on the world the previous one left. *)
Fixpoint run (cs : list Call) (w : World) : World :=
  match cs with
  | [] => w
  | c :: cs' => run cs' (handle c w).2
  end.

(** ** Constraints of the schema *)

(** [auth_user.username] is unique, and so is the primary key of the
    table. *)
Definition db_constraints (d : Database) : Prop :=
  NoDup (username <$> auth_user d) /\ NoDup (user_id <$> auth_user d).

(** The form a POST request is bound to. *)
Definition form_of (d : Database) (request : HttpRequest) : TweetForm.t :=
  TweetForm.bound d (POST request) (FILES request).

(** The instance a form builds from a cleaned text and a cleaned file. *)
Definition built (v : string) (f : option UploadedFile) : Tweet :=
  mkTweet None v (PendingFile <$> f) None None.

(** The row a valid POST appends, given the demo account. *)
Definition posted (now : Z) (d : Database) (v : string) (f : option UploadedFile)
    (demo : User) : Tweet :=
  mkTweet (Some (next_pk (tweet_pks d))) v
    ((fun u => StoredFile (image_upload_to +:+ file_stored_as u)) <$> f)
    (Some now) (Some (user_id demo)).

(** [User.objects.filter(username='demo').count()] *)
Definition demo_count (d : Database) : nat :=
  length (User_objects_filter "demo" d).

(** ** Predicates on tables and runs *)

(** What the database asks of a row that [save] writes, and all it asks:
    an author that is null or a row of [auth_user], and, when the row
    exists and is updated, a [created_at] that is set. *)
Definition db_accepts (d : Database) (t : Tweet) : bool :=
  author_exists d (author t) &&
  match pk t, created_at t with
  | Some i, None => negb (existsb (has_pk i) (tweets_tweet d))
  | _, _ => true
  end.

(** A text as the form leaves it: not empty, at most 280 characters, without
    null character, and without whitespace at either end. *)
Definition text_clean (t : Tweet) : Prop :=
  text t <> "" /\ (String.length (text t) <= 280)%nat /\
  PyStr.has_nul (text t) = false /\ PyStr.trimmed (text t) = true.

(** Every row of [tweets_tweet] has a primary key, and no two rows share
    one. *)
Definition pks_ok (d : Database) : Prop :=
  NoDup (pk <$> tweets_tweet d) /\ Forall (fun t => is_Some (pk t)) (tweets_tweet d).

(** A request the create handler acts on: a POST whose form is valid. *)
Definition accepts (request : HttpRequest) : bool :=
  String.eqb (method request) "POST" && TweetForm.is_valid (form_of empty_db request).

Definition effective (c : Call) : bool :=
  match c with
  | GetList _ => false
  | Create _ request => accepts request
  end.

(** A request to the list view. *)
Definition is_list (c : Call) : bool :=
  match c with
  | GetList _ => true
  | Create _ _ => false
  end.

(** The requests of a sequence that come after its last request to the
    list view: all of them when there is none. *)
Fixpoint since_list (cs : list Call) : list Call :=
  match cs with
  | [] => []
  | _ :: cs' => if existsb is_list cs then since_list cs' else cs
  end.

(** What an effective call leaves in the table: the cleaned text and the
    time of the call. *)
Definition logged (c : Call) : option (string * option Z) :=
  match c with
  | GetList _ => None
  | Create now request =>
      if accepts request
      then Some (text (TweetForm.instance (form_of empty_db request)), Some now)
      else None
  end.

(** [x] was created strictly before [y]. *)
Definition created_before (x y : Tweet) : Prop :=
  match created_at x, created_at y with
  | Some a, Some b => a < b
  | _, _ => False
  end.

(** The success notice of the create handler. *)
Definition success_notice : nat * string := (SUCCESS, "Tweet posted successfully!").

(** The demo account as [get_or_create] builds it on database [d]. *)
Definition new_demo (d : Database) : User :=
  mkUser (next_pk (map user_id (auth_user d))) "demo" "demo12345" true.

(** * Properties *)

(** ** Strings *)

Section PyStrFacts.
Import PyStr.

Lemma isspace_not_nul c : isspace c = true -> (nat_of_ascii c =? 0)%nat = false.
Proof.
  unfold isspace. destruct (nat_of_ascii c =? 0)%nat eqn:E; [|done].
  apply Nat.eqb_eq in E. rewrite E. done.
Qed.

Lemma has_nul_lstrip s : has_nul (lstrip s) = has_nul s.
Proof.
  induction s as [|c s IH]; simpl; [done|].
  destruct (isspace c) eqn:E; [|done].
  by rewrite (isspace_not_nul c E).
Qed.

Lemma has_nul_rstrip s : has_nul (rstrip s) = has_nul s.
Proof.
  induction s as [|c s IH]; simpl; [done|].
  destruct (rstrip s) as [|c' r] eqn:Er.
  - rewrite <- IH. destruct (isspace c) eqn:E; simpl.
    + by rewrite (isspace_not_nul c E).
    + done.
  - simpl in *. by rewrite IH.
Qed.

Lemma has_nul_strip s : has_nul (strip s) = has_nul s.
Proof. unfold strip. by rewrite has_nul_rstrip, has_nul_lstrip. Qed.

Lemma length_lstrip s : (String.length (lstrip s) <= String.length s)%nat.
Proof.
  induction s as [|c s IH]; simpl; [done|].
  destruct (isspace c); simpl; lia.
Qed.

Lemma length_rstrip s : (String.length (rstrip s) <= String.length s)%nat.
Proof.
  induction s as [|c s IH]; simpl; [done|].
  destruct (rstrip s); [destruct (isspace c)|]; simpl in *; lia.
Qed.

Lemma length_strip s : (String.length (strip s) <= String.length s)%nat.
Proof.
  unfold strip. etransitivity; [apply length_rstrip|apply length_lstrip].
Qed.

Lemma lstrip_id s a :
  first_char s = Some a -> isspace a = false -> lstrip s = s.
Proof. destruct s as [|c s]; simpl; [done|]. intros [= ->] ->. done. Qed.

Lemma rstrip_id s b :
  last_char s = Some b -> isspace b = false -> rstrip s = s.
Proof.
  induction s as [|c s IH]; simpl; [done|].
  destruct s as [|c' s'].
  - intros [= ->] ->. done.
  - intros Hl Hb. rewrite (IH Hl Hb). done.
Qed.

(** A string that neither starts nor ends with whitespace is left as it
    is by [strip]. *)
Lemma strip_trimmed s : trimmed s = true -> strip s = s.
Proof.
  unfold trimmed, strip.
  destruct (first_char s) as [a|] eqn:Ha.
  - destruct (last_char s) as [b|] eqn:Hb.
    + intros [Hsa Hsb]%andb_prop.
      apply negb_true_iff in Hsa, Hsb.
      rewrite (lstrip_id s a Ha Hsa). by apply (rstrip_id s b).
    + destruct s as [|c s]; [done|]. exfalso.
      clear Ha. revert c Hb. induction s as [|c' s IH]; intros c; simpl; [done|].
      apply IH.
  - destruct s; [done|discriminate].
Qed.

Lemma slice_to_short n s : (String.length s <= n)%nat -> slice_to n s = s.
Proof.
  revert s; induction n as [|n IH]; intros [|c s]; simpl; try done; [lia|].
  intros H. rewrite IH; [done|lia].
Qed.

Lemma length_slice_to n s :
  String.length (slice_to n s) = Nat.min n (String.length s).
Proof.
  revert s; induction n as [|n IH]; intros [|c s]; simpl; try done.
  by rewrite IH.
Qed.

(** [s[:n]] is the longest prefix of [s] of at most [n] characters. *)
Lemma slice_to_prefix n s : exists rest, s = slice_to n s +:+ rest.
Proof.
  revert s; induction n as [|n IH]; intros s; simpl.
  - by exists s.
  - destruct s as [|c s]; [by exists ""|].
    destruct (IH s) as [rest Hrest]. exists rest.
    change (String c s = String c (slice_to n s +:+ rest)). by f_equal.
Qed.

End PyStrFacts.

(** ** The form *)

Section FormFacts.

Lemma TweetForm_fields :
  TweetForm.fields =
    [ ("text", forms_CharField true (Some 280%nat) true);
      ("image", forms_ImageField false (Some 100%nat)) ].
Proof. reflexivity. Qed.

(** What the text field accepts, and what it returns. *)
Lemma forms_CharField_clean_inr n value v :
  forms_CharField_clean true (Some n) true value = inr v <->
  exists s, value = Some s /\ v = PyStr.strip s /\ v <> ""
            /\ (String.length v <= n)%nat /\ PyStr.has_nul v = false.
Proof.
  unfold forms_CharField_clean, forms_CharField_to_python. split.
  - destruct value as [s|]; [|by rewrite bool_decide_eq_true_2].
    case_bool_decide as Hv; [done|].
    destruct (n <? _)%nat eqn:Hn; [done|].
    destruct (PyStr.has_nul _) eqn:Hz; [done|]. simpl.
    intros [= <-]. exists s. apply Nat.ltb_ge in Hn. done.
  - intros (s & -> & -> & Hv & Hn & Hz).
    rewrite bool_decide_eq_false_2 by done.
    apply Nat.ltb_ge in Hn. by rewrite Hn, Hz.
Qed.

Lemma forms_CharField_clean_inl r n st value e :
  forms_CharField_clean r n st value = inl e -> e <> [].
Proof.
  unfold forms_CharField_clean.
  case_bool_decide; [destruct r; [by intros [= <-]|done]|].
  destruct (_ ++ _)%list eqn:E; [done|by intros [= <-]].
Qed.

Lemma forms_ImageField_clean_inl r n value e :
  forms_ImageField_clean r n value = inl e -> e <> [].
Proof.
  unfold forms_ImageField_clean.
  destruct value as [f|]; [|destruct r; [by intros [= <-]|done]].
  repeat case_match; try done; by intros [= <-].
Qed.

End FormFacts.

(** Evaluate the closed membership tests on field names. *)
Ltac eval_in_names :=
  repeat match goal with
         | |- context [in_names ?a ?l] =>
             let b := eval vm_compute in (in_names a l) in
             change (in_names a l) with b
         end.

Section BoundFacts.

Lemma model_text_ok d v excl :
  v <> "" -> (String.length v <= 280)%nat ->
  in_names "text" excl = false ->
  in_names "created_at" excl = true -> in_names "author" excl = true ->
  in_names "id" excl = true ->
  forall t, text t = v -> Tweet_full_clean d true excl t = Ok tt.
Proof.
  intros Hv Hn H1 H2 H3 H4 t Ht.
  unfold Tweet_full_clean, Tweet_validate_unique, Tweet_clean_fields, Tweet_meta_fields.
  rewrite H4, app_nil_r.
  cbn [omap list_omap fst snd]. rewrite H1, H2, H3.
  cbn [Tweet_clean_field snd blank_of]. rewrite Ht.
  unfold model_CharField_clean.
  rewrite bool_decide_eq_false_2 by done.
  apply Nat.ltb_ge in Hn. rewrite Hn.
  by destruct (in_names "image" excl).
Qed.

(** [TweetForm(data, files)] after [full_clean], by the outcome of the
    two fields. *)
Lemma bound_unfold d data files :
  TweetForm.bound d data files =
    match forms_CharField_clean true (Some 280%nat) true (dict_get data "text"),
          forms_ImageField_clean false (Some 100%nat) (dict_get files "image") with
    | inl e, inl e' =>
        TweetForm.mk true data files [("text", e); ("image", e')] []
          (built "" None)
    | inl e, inr f =>
        TweetForm.mk true data files [("text", e)] [("image", CleanedFile f)]
          (built "" f)
    | inr v, inl e' =>
        TweetForm.mk true data files [("image", e')] [("text", CleanedStr v)]
          (built v None)
    | inr v, inr f =>
        TweetForm.mk true data files []
          [("text", CleanedStr v); ("image", CleanedFile f)] (built v f)
    end.
Proof.
  unfold TweetForm.bound. rewrite TweetForm_fields.
  cbn [TweetForm.clean_fields FormField_clean].
  destruct (forms_CharField_clean _ _ _ _) as [e|v] eqn:Ht;
    destruct (forms_ImageField_clean _ _ _) as [e'|f] eqn:Hi.
  - reflexivity.
  - destruct f; reflexivity.
  - apply forms_CharField_clean_inr in Ht as (s & _ & _ & Hv & Hn & _).
    rewrite (model_text_ok d v) by done. reflexivity.
  - apply forms_CharField_clean_inr in Ht as (s & _ & _ & Hv & Hn & _).
    rewrite (model_text_ok d v) by (by destruct f). by destruct f.
Qed.

End BoundFacts.

(** ** The object-relational layer *)

Section OrmFacts.

Lemma next_pk_gt ids i : i ∈ ids -> (i < next_pk ids)%nat.
Proof.
unfold next_pk. induction ids as [|j ids IH]; [by intros ?%elem_of_nil|].
intros [->|Hi]%elem_of_cons; simpl; [lia|]. specialize (IH Hi). lia.
Qed.

Lemma next_pk_fresh ids : next_pk ids ∉ ids.
Proof. intros H%next_pk_gt. lia. Qed.

(** Under the unique constraint a user name selects at most one row. *)
Lemma filter_username_unique (l : list User) nm :
  NoDup (username <$> l) ->
  filter (fun u => username u = nm) l = [] \/
  exists u, filter (fun u => username u = nm) l = [u].
Proof.
induction l as [|a l IH]; [by left|].
rewrite fmap_cons, NoDup_cons. intros [Ha Hl].
destruct (decide (username a = nm)) as [E|E].
- right. exists a. rewrite filter_cons_True by done. f_equal.
  apply elem_of_nil_inv. intros u [Hu Hin]%list_elem_of_filter.
  apply Ha. rewrite E, <- Hu. by apply list_elem_of_fmap_2.
- rewrite filter_cons_False by done. by apply IH.
Qed.

Lemma filter_none_not_elem (l : list User) nm :
  filter (fun u => username u = nm) l = [] -> nm ∉ username <$> l.
Proof.
intros Hf (u & -> & Hu)%list_elem_of_fmap.
by apply (filter_nil_not_elem_of _ _ _ Hf) in Hu.
Qed.

(** Appending a row with the next key and an unused name keeps the
    constraints. *)
Lemma db_constraints_add_user d nm pw act :
  db_constraints d ->
  User_objects_filter nm d = [] ->
  db_constraints
    (mkDatabase (auth_user d ++ [mkUser (next_pk (map user_id (auth_user d))) nm pw act])
       (tweets_tweet d)).
Proof.
intros [Hn Hi] Hf. split; simpl; rewrite fmap_app, NoDup_app; simpl.
- split_and!; [done| |apply NoDup_singleton].
  intros x Hx ->%list_elem_of_singleton. by apply (filter_none_not_elem _ _ Hf).
- split_and!; [done| |apply NoDup_singleton].
  intros x Hx ->%list_elem_of_singleton. by apply next_pk_fresh in Hx.
Qed.

Lemma filter_none_free (l : list User) nm :
  filter (fun u => username u = nm) l = [] ->
  existsb (fun u => bool_decide (username u = nm)) l = false.
Proof.
induction l as [|a l IH]; [done|]. simpl.
destruct (decide (username a = nm)) as [E|E].
- by rewrite filter_cons_True.
- rewrite filter_cons_False by done. intros Hf.
  by rewrite bool_decide_eq_false_2, IH.
Qed.

(** [get_or_create], by the number of rows of that name: none, one or
    more. *)
Lemma get_or_create_cases nm pw act w :
  match User_objects_filter nm (db w) with
  | [] =>
      let u := mkUser (next_pk (map user_id (auth_user (db w)))) nm pw act in
      User_objects_get_or_create nm pw act w =
        (Ok (u, true),
         mkWorld (mkDatabase (auth_user (db w) ++ [u]) (tweets_tweet (db w)))
           (messages w))
  | [u] => User_objects_get_or_create nm pw act w = (Ok (u, false), w)
  | _ :: _ :: _ =>
      User_objects_get_or_create nm pw act w = (Raise MultipleObjectsReturned, w)
  end.
Proof.
pose proof (filter_none_free (auth_user (db w)) nm) as Hfree.
unfold User_objects_filter in *.
unfold User_objects_get_or_create, User_objects_get, User_objects_filter,
  catch, bind, get_db.
destruct (filter _ (auth_user (db w))) as [|u [|u' l]]; [|done|done].
cbn. unfold User_objects_create, bind, get_db. by rewrite Hfree.
Qed.

Lemma author_exists_elem d u : u ∈ auth_user d -> author_exists d (Some (user_id u)) = true.
Proof.
intros Hu. simpl. apply existsb_exists. exists u.
split; [by apply list_elem_of_In|by apply bool_decide_eq_true].
Qed.

Lemma author_exists_grow d users' extra a :
  users' = auth_user d ++ extra ->
  author_exists d a = true ->
  forall tw, author_exists (mkDatabase users' tw) a = true.
Proof.
intros -> Ha tw. destruct a as [uid|]; [|done]. simpl in *.
rewrite existsb_app. by rewrite Ha.
Qed.

Lemma Tweet_insert_unfold now i t w :
  author_exists (db w) (author t) = true ->
  Tweet_insert now i t w =
    (Ok (mkTweet (Some i) (text t) (commit_file <$> image t) (Some now) (author t)),
     mkWorld (mkDatabase (auth_user (db w))
                (tweets_tweet (db w) ++
                   [mkTweet (Some i) (text t) (commit_file <$> image t) (Some now)
                      (author t)]))
       (messages w)).
Proof. intros Ha. unfold Tweet_insert, bind, get_db. by rewrite Ha. Qed.

(** Saving an instance without primary key, and with an author that is
    null or a row, appends one row. *)
Lemma Tweet_save_new now t w :
  pk t = None ->
  author_exists (db w) (author t) = true ->
  let t' := mkTweet (Some (next_pk (tweet_pks (db w)))) (text t)
              (commit_file <$> image t) (Some now) (author t) in
  Tweet_save now t w =
    (Ok t', mkWorld (mkDatabase (auth_user (db w)) (tweets_tweet (db w) ++ [t']))
              (messages w)).
Proof.
intros Hpk Ha. unfold Tweet_save, bind at 1, get_db. rewrite Hpk.
by rewrite Tweet_insert_unfold.
Qed.

(** A row is found by the primary key of its user. *)
Lemma Tweet_author_found d t u :
  NoDup (user_id <$> auth_user d) ->
  u ∈ auth_user d -> author t = Some (user_id u) ->
  Tweet_author d t = Some (Some u).
Proof.
intros Hnd Hu Ha. unfold Tweet_author. rewrite Ha.
induction (auth_user d) as [|a l IH]; [by apply elem_of_nil in Hu|].
rewrite fmap_cons, NoDup_cons in Hnd. destruct Hnd as [Ha' Hl].
apply elem_of_cons in Hu as [->|Hu].
- by rewrite filter_cons_True.
- rewrite filter_cons_False; [by apply IH|].
  intros E. apply Ha'. rewrite E. by apply list_elem_of_fmap_2.
Qed.

End OrmFacts.

(** ** The create handler, case by case *)

Section HandlerFacts.

Lemma is_valid_iff d data files :
  TweetForm.is_valid (TweetForm.bound d data files) = true <->
  exists v f,
    forms_CharField_clean true (Some 280%nat) true (dict_get data "text") = inr v /\
    forms_ImageField_clean false (Some 100%nat) (dict_get files "image") = inr f /\
    TweetForm.instance (TweetForm.bound d data files) = built v f.
Proof.
rewrite bound_unfold. unfold TweetForm.is_valid.
destruct (forms_CharField_clean _ _ _ _) as [e|v];
  destruct (forms_ImageField_clean _ _ _) as [e'|f]; simpl;
  split; try done; try (by intros (? & ? & ? & ? & ?)).
intros _. by exists v, f.
Qed.

(** A form's outcome does not depend on the database: the only field of the
    model that is validated against it, [author], is not in the form. *)
Lemma bound_db_irrelevant d d' data files :
  TweetForm.bound d data files = TweetForm.bound d' data files.
Proof. by rewrite !bound_unfold. Qed.

Lemma tweet_create_not_post now request w :
  method request <> "POST" ->
  tweet_create now request w =
    (Ok (TemplateResponse "tweets/tweet_form.html" (ctx_form TweetForm.unbound)), w).
Proof.
intros Hm. unfold tweet_create, bind, get_db.
destruct (String.eqb_spec (method request) "POST"); done.
Qed.

Lemma tweet_create_invalid now request w :
  method request = "POST" ->
  TweetForm.is_valid (form_of (db w) request) = false ->
  tweet_create now request w =
    (Ok (TemplateResponse "tweets/tweet_form.html" (ctx_form (form_of (db w) request))), w).
Proof.
intros Hm Hv. unfold tweet_create, bind, get_db. rewrite Hm, String.eqb_refl.
unfold form_of in Hv. by rewrite Hv.
Qed.

(** A valid POST, by the number of demo accounts. *)
Lemma tweet_create_valid_cases now request w :
  method request = "POST" ->
  TweetForm.is_valid (form_of (db w) request) = true ->
  exists v f,
    forms_CharField_clean true (Some 280%nat) true (dict_get (POST request) "text") = inr v /\
    forms_ImageField_clean false (Some 100%nat) (dict_get (FILES request) "image") = inr f /\
    match User_objects_filter "demo" (db w) with
    | [] =>
        let demo := mkUser (next_pk (map user_id (auth_user (db w))))
                      "demo" "demo12345" true in
        tweet_create now request w =
          (Ok (HttpResponseRedirect "/"),
           mkWorld (mkDatabase (auth_user (db w) ++ [demo])
                      (tweets_tweet (db w) ++ [posted now (db w) v f demo]))
             (messages w ++ [(SUCCESS, "Tweet posted successfully!")]))
    | [demo] =>
        tweet_create now request w =
          (Ok (HttpResponseRedirect "/"),
           mkWorld (mkDatabase (auth_user (db w))
                      (tweets_tweet (db w) ++ [posted now (db w) v f demo]))
             (messages w ++ [(SUCCESS, "Tweet posted successfully!")]))
    | _ :: _ :: _ =>
        tweet_create now request w = (Raise MultipleObjectsReturned, w)
    end.
Proof.
intros Hm Hv. unfold form_of in Hv.
destruct (proj1 (is_valid_iff _ _ _) Hv) as (v & f & Ht & Hi & Hinst).
exists v, f. split_and!; [done|done|].
pose proof (get_or_create_cases "demo" "demo12345" true w) as Hg.
destruct (User_objects_filter "demo" (db w)) as [|u [|u' l]] eqn:E;
  cbv zeta in *;
  unfold tweet_create, bind at 1, get_db; rewrite Hm, String.eqb_refl;
  rewrite Hv; unfold TweetForm.save_commit_false; rewrite Hinst;
  unfold bind at 1; rewrite Hg; [| |done].
- unfold bind at 1. rewrite Tweet_save_new; [|done|].
  + unfold bind, messages_success, redirect, ret. simpl.
    unfold posted. by destruct f.
  + apply author_exists_elem. simpl. apply elem_of_app. right. apply list_elem_of_here.
- unfold bind at 1. rewrite Tweet_save_new; [|done|].
  + unfold bind, messages_success, redirect, ret. simpl.
    unfold posted. by destruct f.
  + apply author_exists_elem.
    assert (H : u ∈ User_objects_filter "demo" (db w))
      by (rewrite E; apply list_elem_of_here).
    by apply list_elem_of_filter in H as [_ ?].
Qed.

(** A valid POST on a database that satisfies its constraints. *)
Lemma tweet_create_valid now request w :
  method request = "POST" ->
  TweetForm.is_valid (form_of (db w) request) = true ->
  db_constraints (db w) ->
  exists v f demo users',
    forms_CharField_clean true (Some 280%nat) true (dict_get (POST request) "text") = inr v /\
    forms_ImageField_clean false (Some 100%nat) (dict_get (FILES request) "image") = inr f /\
    ((User_objects_filter "demo" (db w) = [demo] /\ users' = auth_user (db w)) \/
     (User_objects_filter "demo" (db w) = [] /\
      demo = mkUser (next_pk (map user_id (auth_user (db w)))) "demo" "demo12345" true /\
      users' = auth_user (db w) ++ [demo])) /\
    tweet_create now request w =
      (Ok (HttpResponseRedirect "/"),
       mkWorld (mkDatabase users' (tweets_tweet (db w) ++ [posted now (db w) v f demo]))
         (messages w ++ [(SUCCESS, "Tweet posted successfully!")])).
Proof.
intros Hm Hv [Hn _].
destruct (tweet_create_valid_cases now request w Hm Hv) as (v & f & Ht & Hi & Hc).
exists v, f.
destruct (filter_username_unique (auth_user (db w)) "demo" Hn) as [E|[u E]];
  unfold User_objects_filter in *; rewrite E in Hc.
- eexists _, _. split_and!; [done|done|right; split_and!; done|done].
- exists u, (auth_user (db w)). split_and!; [done|done|by left|done].
Qed.

(** What a request to the create handler can do to the world: nothing, or
    append one tweet by the demo account, one message, and the demo account
    when it was missing. *)
Lemma tweet_create_effect now request w :
  (tweet_create now request w).2 = w \/
  exists v f demo users',
    method request = "POST" /\
    forms_CharField_clean true (Some 280%nat) true (dict_get (POST request) "text") = inr v /\
    forms_ImageField_clean false (Some 100%nat) (dict_get (FILES request) "image") = inr f /\
    ((User_objects_filter "demo" (db w) = [demo] /\ users' = auth_user (db w)) \/
     (User_objects_filter "demo" (db w) = [] /\
      demo = mkUser (next_pk (map user_id (auth_user (db w)))) "demo" "demo12345" true /\
      users' = auth_user (db w) ++ [demo])) /\
    tweet_create now request w =
      (Ok (HttpResponseRedirect "/"),
       mkWorld (mkDatabase users' (tweets_tweet (db w) ++ [posted now (db w) v f demo]))
         (messages w ++ [(SUCCESS, "Tweet posted successfully!")])).
Proof.
destruct (decide (method request = "POST")) as [Hm|Hm];
  [|left; by rewrite tweet_create_not_post].
destruct (TweetForm.is_valid (form_of (db w) request)) eqn:Hv;
  [|left; by rewrite tweet_create_invalid].
destruct (tweet_create_valid_cases now request w Hm Hv) as (v & f & Ht & Hi & Hc).
destruct (User_objects_filter "demo" (db w)) as [|u [|u' l]] eqn:E.
- right. eexists v, f, _, _. split_and!; [done|done|done|right; split_and!; done|done].
- right. exists v, f, u, (auth_user (db w)). split_and!; [done|done|done|by left|done].
- left. by rewrite Hc.
Qed.

End HandlerFacts.

(** ** Runs: what every request keeps *)

Section RunFacts.

Lemma tweet_list_unfold request w :
  tweet_list request w =
    (Ok (TemplateResponse "tweets/tweet_list.html"
           (ctx_tweets (Tweet_objects_all (db w)))), mkWorld (db w) []).
Proof. reflexivity. Qed.

(** A request appends at most one row to the table of tweets, stamped with
    the time of the request, and touches no other row. *)
Lemma handle_tweets c w :
  exists new,
    tweets_tweet (db (handle c w).2) = tweets_tweet (db w) ++ new /\
    (new = [] \/
     exists now request t, c = Create now request /\ new = [t] /\
                           created_at t = Some now).
Proof.
destruct c as [request|now request]; simpl.
- exists []. rewrite app_nil_r. by split; [|left].
- destruct (tweet_create_effect now request w)
    as [->|(v & f & demo & users' & _ & _ & _ & _ & ->)].
  + exists []. rewrite app_nil_r. by split; [|left].
  + eexists [_]. split; [done|]. right. by eexists _, _, _.
Qed.

Lemma run_tweets cs w :
  exists new, tweets_tweet (db (run cs w)) = tweets_tweet (db w) ++ new.
Proof.
revert w. induction cs as [|c cs IH]; intros w; simpl.
- exists []. by rewrite app_nil_r.
- destruct (IH (handle c w).2) as [new2 ->].
  destruct (handle_tweets c w) as (new1 & -> & _).
  exists (new1 ++ new2). by rewrite app_assoc.
Qed.

(** The constraints of the schema hold after every request. *)
Lemma handle_constraints c w :
  db_constraints (db w) -> db_constraints (db (handle c w).2).
Proof.
intros Hc. destruct c as [request|now request]; simpl; [done|].
destruct (tweet_create_effect now request w)
  as [->|(v & f & demo & users' & _ & _ & _ & [[_ ->]|(Hf & -> & ->)] & ->)];
  [done|by destruct Hc|].
by apply (db_constraints_add_user (db w) "demo" "demo12345" true).
Qed.

Lemma run_constraints cs w :
  db_constraints (db w) -> db_constraints (db (run cs w)).
Proof.
revert w. induction cs as [|c cs IH]; intros w Hc; simpl; [done|].
by apply IH, handle_constraints.
Qed.

Lemma demo_count_le d : db_constraints d -> (demo_count d <= 1)%nat.
Proof.
intros [Hn _]. unfold demo_count, User_objects_filter.
destruct (filter_username_unique (auth_user d) "demo" Hn) as [->|[u ->]];
  simpl; lia.
Qed.

End RunFacts.

(** ** The default ordering *)

Section OrderingFacts.

#[local] Instance created_at_desc_trans : Transitive created_at_desc.
Proof.
intros x y z. unfold created_at_desc.
destruct (created_at x), (created_at y), (created_at z); try done. lia.
Qed.

#[local] Instance created_at_desc_total : Total created_at_desc.
Proof.
intros x y. unfold created_at_desc.
destruct (created_at x), (created_at y); try (by left); try (by right). lia.
Qed.

Lemma order_insert_perm t l : order_insert t l ≡ₚ t :: l.
Proof.
induction l as [|x l IH]; simpl; [done|].
destruct (decide (created_at_desc t x)); [done|].
rewrite IH. apply Permutation_swap.
Qed.

Lemma order_insert_sorted t l :
  StronglySorted created_at_desc l ->
  StronglySorted created_at_desc (order_insert t l).
Proof.
induction 1 as [|x l Hs IH Hall]; simpl; [repeat constructor|].
destruct (decide (created_at_desc t x)) as [Htx|Htx].
- constructor; [by constructor|]. constructor; [done|].
  eapply Forall_impl; [exact Hall|]. intros y Hxy. by transitivity x.
- constructor; [done|]. rewrite order_insert_perm. constructor; [|done].
  by destruct (total created_at_desc t x).
Qed.

Lemma Tweet_objects_all_sorted d :
  StronglySorted created_at_desc (Tweet_objects_all d).
Proof.
unfold Tweet_objects_all.
induction (tweets_tweet d) as [|t l IH]; simpl; [constructor|].
by apply order_insert_sorted.
Qed.

Lemma Tweet_objects_all_perm d : Tweet_objects_all d ≡ₚ tweets_tweet d.
Proof.
unfold Tweet_objects_all.
induction (tweets_tweet d) as [|t l IH]; simpl; [done|].
by rewrite order_insert_perm, IH.
Qed.

(** In a sorted list an earlier position is related to a later one. *)
Lemma StronglySorted_lookup_lt {A} (R : relation A) (l : list A) i j x y :
  StronglySorted R l -> (i < j)%nat ->
  l !! i = Some x -> l !! j = Some y -> R x y.
Proof.
intros Hs. revert i j. induction Hs as [|a l Hs IH Hall]; intros i j Hij Hi Hj.
- by rewrite lookup_nil in Hi.
- destruct j as [|j]; [lia|]. simpl in Hj.
  destruct i as [|i]; simpl in Hi.
  + injection Hi as ->. rewrite Forall_forall in Hall.
    by apply Hall, list_elem_of_lookup_2 with j.
  + apply (IH i j); [lia|done|done].
Qed.

End OrderingFacts.

(** ** The tests of the repository, replayed *)

Section RepositoryTests.

(** [setUp]: one account, [testuser]. *)
Let db0 : Database := mkDatabase [mkUser 1 "testuser" "testpass123" true] [].
Let w0 : World := mkWorld db0 [].
Let post (txt : string) : HttpRequest := mkHttpRequest "POST" [("text", txt)] [] None.
Let get : HttpRequest := mkHttpRequest "GET" [] [] None.

Example test_tweet_creation_with_max_length_text :
  forall t w,
    Tweet_objects_create 0 (PyStr.repeat "x" 280) (Some 1%nat) w0 = (Ok t, w) ->
    String.length (text t) = 280%nat /\ text t = PyStr.repeat "x" 280.
Proof. intros t w [= <- <-]. by vm_compute. Qed.

Example test_tweet_text_max_length_validation :
  Tweet_full_clean db0 true [] (Tweet_new (PyStr.repeat "x" 281) (Some 1%nat)) =
    Raise (ValidationError [("text", [max_length_exceeded])]).
Proof. by vm_compute. Qed.

Example test_tweet_string_representation :
  forall t w,
    Tweet_objects_create 0 "Test tweet for string representation" (Some 1%nat) w0
      = (Ok t, w) ->
    Tweet___str__ (db w) t = Some "testuser: Test tweet for string representation...".
Proof. intros t w [= <- <-]. by vm_compute. Qed.

Example test_tweet_ordering :
  forall tweet1 tweet2 w1 w2,
    Tweet_objects_create 1 "First tweet" (Some 1%nat) w0 = (Ok tweet1, w1) ->
    Tweet_objects_create 2 "Second tweet" (Some 1%nat) w1 = (Ok tweet2, w2) ->
    head (Tweet_objects_all (db w2)) = Some tweet2 /\
    last (Tweet_objects_all (db w2)) = Some tweet1.
Proof. intros ? ? ? ? [= <- <-] [= <- <-]. by vm_compute. Qed.

Example test_tweet_without_author :
  forall t w,
    Tweet_objects_create 0 "Anonymous tweet" None w0 = (Ok t, w) ->
    author t = None /\ Tweet___str__ (db w) t = Some "Anonymous: Anonymous tweet...".
Proof. intros t w [= <- <-]. by vm_compute. Qed.

Example test_tweet_list_view_empty :
  tweet_list get w0 =
    (Ok (TemplateResponse "tweets/tweet_list.html" (ctx_tweets [])), w0).
Proof. reflexivity. Qed.

Example test_tweet_create_view_get :
  tweet_create 0 get w0 =
    (Ok (TemplateResponse "tweets/tweet_form.html" (ctx_form TweetForm.unbound)), w0).
Proof. reflexivity. Qed.

Example test_tweet_create_view_post_valid :
  forall w,
    tweet_create 0 (post "This is a new tweet via POST") w0
      = (Ok (HttpResponseRedirect "/"), w) ->
    text <$> tweets_tweet (db w) = ["This is a new tweet via POST"] /\
    messages w = [(SUCCESS, "Tweet posted successfully!")].
Proof. intros w [= <-]. by vm_compute. Qed.

Example test_tweet_create_view_post_with_image :
  (tweet_create 0
     (mkHttpRequest "POST" [("text", "Tweet with image")]
        [("image", mkUploadedFile "test_image.jpg" 825 true true "test_image.jpg")] None)
     w0).2.(db).(tweets_tweet)
  = [mkTweet (Some 1%nat) "Tweet with image"
       (Some (StoredFile "tweets/test_image.jpg")) (Some 0) (Some 2%nat)].
Proof. by vm_compute. Qed.

Example test_tweet_create_view_post_invalid :
  exists form,
    tweet_create 0 (post "") w0 =
      (Ok (TemplateResponse "tweets/tweet_form.html" (ctx_form form)), w0) /\
    TweetForm.errors form = [("text", [required])] /\
    length (tweets_tweet (db w0)) = 0%nat.
Proof. eexists. split_and!; reflexivity. Qed.

Example test_demo_user_creation :
  User_objects_filter "demo" db0 = [] /\
  forall w,
    tweet_create 0 (post "Test tweet for demo user creation") w0
      = (Ok (HttpResponseRedirect "/"), w) ->
    User_objects_filter "demo" (db w) = [mkUser 2 "demo" "demo12345" true] /\
    (fun t => username <$> default None (Tweet_author (db w) t))
      <$> tweets_tweet (db w) = [Some "demo"].
Proof. split; [reflexivity|]. intros w [= <-]. by vm_compute. Qed.

Example test_url_patterns :
  reverse "tweet_list" = Some "/" /\ reverse "tweet_create" = Some "/create/".
Proof. split; reflexivity. Qed.

End RepositoryTests.

(** ** The framework at its edges *)

(** A file with the content of an image under a name whose extension is
    not an image's passes [to_python] and fails the validator. *)
Example image_with_text_extension :
  forms_ImageField_clean false (Some 100%nat)
    (Some (mkUploadedFile "photo.txt" 825 true false "photo.txt")) =
    inl [invalid_extension].
Proof. reflexivity. Qed.

(** The storage names the file; the instance records that name. *)
Example image_renamed_by_storage :
  commit_file (PendingFile (mkUploadedFile "my photo.jpg" 825 true true "my_photo.jpg")) =
    StoredFile "tweets/my_photo.jpg".
Proof. reflexivity. Qed.

(** An instance built in memory with the key of a row: [full_clean] reports
    the key, and [save] turns into an update that sets [created_at] to
    null, which the database refuses. *)
Example new_instance_with_taken_key :
  let w := mkWorld (mkDatabase [] [mkTweet (Some 1%nat) "first" None (Some 5) None]) [] in
  let t := mkTweet (Some 1%nat) "second" None None None in
  Tweet_full_clean (db w) true [] t = Raise (ValidationError [("id", [unique])]) /\
  Tweet_save 9 t w = (Raise IntegrityError, w).
Proof. split; reflexivity. Qed.

(** An author that is the key of no account is refused by the database. *)
Example create_with_dangling_author :
  Tweet_objects_create 9 "orphan" (Some 9%nat) (mkWorld empty_db []) =
    (Raise IntegrityError, mkWorld empty_db []).
Proof. reflexivity. Qed.

(** The notice of a POST is on the list page that follows, once. *)
Example notice_shown_once :
  let posted_ := (tweet_create 9 (mkHttpRequest "POST" [("text", "hello world")] [] None)
                    (mkWorld empty_db [])).2 in
  messages posted_ = [success_notice] /\
  messages (tweet_list (mkHttpRequest "GET" [] [] None) posted_).2 = [].
Proof. split; reflexivity. Qed.

(** * The claims *)

(** ** C1: creating a tweet with a text of at most 280 characters *)

(** C1, as stated, fails on the code: the text [" hi"] has three
    characters and the form accepts it, yet the record that is stored holds
    ["hi"], since the text field of the form strips the submitted value; no
    stored record has the text that was submitted. *)
Lemma create_stored_text_differs_counterexample :
  (String.length " hi" <= 280)%nat /\
  TweetForm.is_valid
    (form_of empty_db (mkHttpRequest "POST" [("text", " hi")] [] None)) = true /\
  (tweet_create 0 (mkHttpRequest "POST" [("text", " hi")] [] None)
     (mkWorld empty_db [])).2.(db).(tweets_tweet) =
    [mkTweet (Some 1%nat) "hi" None (Some 0) (Some 1%nat)] /\
  ~ (exists t,
       t ∈ (tweet_create 0 (mkHttpRequest "POST" [("text", " hi")] [] None)
              (mkWorld empty_db [])).2.(db).(tweets_tweet) /\
       text t = " hi").
Proof.
split_and!; [simpl; lia|reflexivity|reflexivity|].
intros (t & Ht & Htext).
change (t ∈ [mkTweet (Some 1%nat) "hi" None (Some 0) (Some 1%nat)]) in Ht.
apply list_elem_of_singleton in Ht. subst t. discriminate Htext.
Qed.

(** C1, amended: for every text [T] of at most 280 characters that has no
    null character and is not made of whitespace only, a POST with [T] as
    its text and no image succeeds: the handler redirects, exactly one
    record is appended, and its text is [T] without its leading and trailing
    whitespace, which is [T] itself when [T] neither starts nor ends with
    whitespace. *)
Theorem create_stores_stripped_text now request w T :
  db_constraints (db w) ->
  method request = "POST" ->
  dict_get (POST request) "text" = Some T ->
  dict_get (FILES request) "image" = None ->
  (String.length T <= 280)%nat ->
  PyStr.has_nul T = false ->
  PyStr.strip T <> "" ->
  exists w' t,
    tweet_create now request w = (Ok (HttpResponseRedirect "/"), w') /\
    tweets_tweet (db w') = tweets_tweet (db w) ++ [t] /\
    text t = PyStr.strip T /\
    (PyStr.trimmed T = true -> text t = T).
Proof.
intros Hc Hm Htext Himg Hlen Hnul Hne.
assert (Hct : forms_CharField_clean true (Some 280%nat) true
                (dict_get (POST request) "text") = inr (PyStr.strip T)).
{ apply forms_CharField_clean_inr. exists T. split_and!; try done.
  - pose proof (length_strip T). lia.
  - by rewrite has_nul_strip. }
assert (Hv : TweetForm.is_valid (form_of (db w) request) = true).
{ apply is_valid_iff. exists (PyStr.strip T), None. rewrite Himg.
  split_and!; [done|done|]. rewrite bound_unfold, Hct, Himg. done. }
destruct (tweet_create_valid now request w Hm Hv Hc)
  as (v & f & demo & users' & Hv' & _ & _ & ->).
rewrite Hct in Hv'. injection Hv' as <-.
eexists _, _. split_and!; [done|done|done|].
intros Htr. simpl. by apply strip_trimmed.
Qed.

Lemma create_stores_stripped_text_witness :
  db_constraints empty_db /\
  (String.length "hello world" <= 280)%nat /\
  PyStr.has_nul "hello world" = false /\
  PyStr.strip "hello world" <> "" /\
  exists w' t,
    tweet_create 5 (mkHttpRequest "POST" [("text", "hello world")] [] None)
      (mkWorld empty_db []) = (Ok (HttpResponseRedirect "/"), w') /\
    tweets_tweet (db w') = [] ++ [t] /\
    text t = PyStr.strip "hello world" /\
    (PyStr.trimmed "hello world" = true -> text t = "hello world").
Proof.
assert (Hc : db_constraints empty_db) by (split; apply NoDup_nil_2).
assert (Hl : (String.length "hello world" <= 280)%nat) by (simpl; lia).
assert (Hs : PyStr.strip "hello world" <> "") by (vm_compute; discriminate).
split_and!; [exact Hc|exact Hl|reflexivity|exact Hs|].
exact (create_stores_stripped_text 5
         (mkHttpRequest "POST" [("text", "hello world")] [] None)
         (mkWorld empty_db []) "hello world"
         Hc eq_refl eq_refl eq_refl Hl eq_refl Hs).
Defined.

(** ** C2: a text of more than 280 characters *)

(** C2, as stated, fails on the code: 280 letters followed by one space are
    281 characters, and the form accepts them, because the length is checked
    after the value is stripped; a record of 280 characters is stored. *)
Lemma create_long_text_accepted_counterexample :
  (280 < String.length (PyStr.repeat "x" 280 +:+ " "))%nat /\
  TweetForm.is_valid
    (form_of empty_db
       (mkHttpRequest "POST" [("text", PyStr.repeat "x" 280 +:+ " ")] [] None)) = true /\
  (tweet_create 0
     (mkHttpRequest "POST" [("text", PyStr.repeat "x" 280 +:+ " ")] [] None)
     (mkWorld empty_db [])).2.(db).(tweets_tweet) =
    [mkTweet (Some 1%nat) (PyStr.repeat "x" 280) None (Some 0) (Some 1%nat)].
Proof. split_and!; [vm_compute; lia|vm_compute; reflexivity|vm_compute; reflexivity]. Qed.

(** C2, amended: for every text [T] that is longer than 280 characters once
    its leading and trailing whitespace is removed, the form rejects the
    submission with a length error on the text field, the handler renders
    the form again, and the world (database and messages) is unchanged. *)
Theorem create_rejects_long_text now request w T :
  method request = "POST" ->
  dict_get (POST request) "text" = Some T ->
  (280 < String.length (PyStr.strip T))%nat ->
  TweetForm.is_valid (form_of (db w) request) = false /\
  (exists errs, ("text", max_length_exceeded :: errs)
                  ∈ TweetForm.errors (form_of (db w) request)) /\
  tweet_create now request w =
    (Ok (TemplateResponse "tweets/tweet_form.html"
           (ctx_form (form_of (db w) request))), w).
Proof.
intros Hm Htext Hlen.
assert (Hct : exists errs,
           forms_CharField_clean true (Some 280%nat) true
             (dict_get (POST request) "text") = inl (max_length_exceeded :: errs)).
{ rewrite Htext. unfold forms_CharField_clean, forms_CharField_to_python.
  rewrite bool_decide_eq_false_2 by (intros E; rewrite E in Hlen; simpl in Hlen; lia).
  apply Nat.ltb_lt in Hlen. rewrite Hlen. simpl. by eexists. }
destruct Hct as [errs Hct].
assert (Hv : TweetForm.is_valid (form_of (db w) request) = false).
{ unfold form_of. rewrite bound_unfold, Hct. by destruct (forms_ImageField_clean _ _ _). }
split_and!; [done| |by apply tweet_create_invalid].
exists errs. unfold form_of. rewrite bound_unfold, Hct.
destruct (forms_ImageField_clean _ _ _); simpl; apply elem_of_cons; by left.
Qed.

Lemma create_rejects_long_text_witness :
  (280 < String.length (PyStr.strip (PyStr.repeat "x" 281)))%nat /\
  TweetForm.is_valid
    (form_of empty_db
       (mkHttpRequest "POST" [("text", PyStr.repeat "x" 281)] [] None)) = false /\
  (exists errs, ("text", max_length_exceeded :: errs)
                  ∈ TweetForm.errors
                      (form_of empty_db
                         (mkHttpRequest "POST" [("text", PyStr.repeat "x" 281)] [] None))) /\
  tweet_create 0 (mkHttpRequest "POST" [("text", PyStr.repeat "x" 281)] [] None)
    (mkWorld empty_db []) =
    (Ok (TemplateResponse "tweets/tweet_form.html"
           (ctx_form (form_of empty_db
                        (mkHttpRequest "POST" [("text", PyStr.repeat "x" 281)] [] None)))),
     mkWorld empty_db []).
Proof.
assert (Hl : (280 < String.length (PyStr.strip (PyStr.repeat "x" 281)))%nat)
  by (vm_compute; lia).
split; [exact Hl|].
exact (create_rejects_long_text 0
         (mkHttpRequest "POST" [("text", PyStr.repeat "x" 281)] [] None)
         (mkWorld empty_db []) (PyStr.repeat "x" 281) eq_refl eq_refl Hl).
Defined.

(** ** C3: the list is ordered by [created_at], newest first *)

(** C3: the list handler renders every persisted record, and of two
    persisted records the one created later stands before the one created
    earlier, at whatever positions they occur. *)
Theorem tweet_list_newest_first request w A B a b :
  A ∈ tweets_tweet (db w) ->
  B ∈ tweets_tweet (db w) ->
  created_at A = Some a ->
  created_at B = Some b ->
  a < b ->
  exists l,
    tweet_list request w =
      (Ok (TemplateResponse "tweets/tweet_list.html" (ctx_tweets l)),
       mkWorld (db w) []) /\
    l ≡ₚ tweets_tweet (db w) /\
    (exists i j, l !! i = Some B /\ l !! j = Some A /\ (i < j)%nat) /\
    (forall i j, l !! i = Some B -> l !! j = Some A -> (i < j)%nat).
Proof.
intros HA HB Ha Hb Hlt. exists (Tweet_objects_all (db w)).
pose proof (Tweet_objects_all_sorted (db w)) as Hs.
pose proof (Tweet_objects_all_perm (db w)) as Hp.
assert (Hord : forall i j, Tweet_objects_all (db w) !! i = Some B ->
                 Tweet_objects_all (db w) !! j = Some A -> (i < j)%nat).
{ intros i j Hi Hj. destruct (decide (i < j)%nat) as [|Hge]; [done|]. exfalso.
  destruct (decide (i = j)) as [->|Hne].
  - rewrite Hi in Hj. injection Hj as ->. rewrite Ha in Hb. injection Hb as ->. lia.
  - assert (Hji : (j < i)%nat) by lia.
    pose proof (StronglySorted_lookup_lt _ _ j i A B Hs Hji Hj Hi) as HR.
    unfold created_at_desc in HR. rewrite Ha, Hb in HR. lia. }
split_and!; [apply tweet_list_unfold|done| |done].
rewrite <- Hp in HA, HB.
apply list_elem_of_lookup_1 in HA as [j Hj], HB as [i Hi].
exists i, j. split_and!; [done|done|by apply Hord].
Qed.

Lemma tweet_list_newest_first_witness :
  exists l,
    tweet_list (mkHttpRequest "GET" [] [] None)
      (mkWorld (mkDatabase []
                  [ mkTweet (Some 1%nat) "First tweet" None (Some 10) None;
                    mkTweet (Some 2%nat) "Second tweet" None (Some 20) None ]) []) =
      (Ok (TemplateResponse "tweets/tweet_list.html" (ctx_tweets l)),
       mkWorld (mkDatabase []
                  [ mkTweet (Some 1%nat) "First tweet" None (Some 10) None;
                    mkTweet (Some 2%nat) "Second tweet" None (Some 20) None ]) []) /\
    l ≡ₚ [ mkTweet (Some 1%nat) "First tweet" None (Some 10) None;
           mkTweet (Some 2%nat) "Second tweet" None (Some 20) None ] /\
    (exists i j,
        l !! i = Some (mkTweet (Some 2%nat) "Second tweet" None (Some 20) None) /\
        l !! j = Some (mkTweet (Some 1%nat) "First tweet" None (Some 10) None) /\
        (i < j)%nat) /\
    (forall i j,
        l !! i = Some (mkTweet (Some 2%nat) "Second tweet" None (Some 20) None) ->
        l !! j = Some (mkTweet (Some 1%nat) "First tweet" None (Some 10) None) ->
        (i < j)%nat).
Proof.
apply (tweet_list_newest_first (mkHttpRequest "GET" [] [] None)
         (mkWorld (mkDatabase []
                     [ mkTweet (Some 1%nat) "First tweet" None (Some 10) None;
                       mkTweet (Some 2%nat) "Second tweet" None (Some 20) None ]) [])
         (mkTweet (Some 1%nat) "First tweet" None (Some 10) None)
         (mkTweet (Some 2%nat) "Second tweet" None (Some 20) None) 10 20).
- simpl. apply list_elem_of_here.
- simpl. apply list_elem_of_further, list_elem_of_here.
- reflexivity.
- reflexivity.
- lia.
Defined.

(** ** C4: the demo account *)

(** C4: from a database that satisfies the constraints of its schema, two
    valid POSTs in a row (whatever the user of the request) both succeed;
    both tweets have as author the one account named [demo]; the first POST
    appends that account, with the placeholder password and active, exactly
    when no account of that name exists, the second leaves the table of
    users as it is; and after any sequence of requests at most one account
    named [demo] exists. *)
Theorem demo_account_get_or_create now1 r1 now2 r2 w :
  db_constraints (db w) ->
  method r1 = "POST" ->
  TweetForm.is_valid (form_of (db w) r1) = true ->
  method r2 = "POST" ->
  TweetForm.is_valid (form_of (db (tweet_create now1 r1 w).2) r2) = true ->
  exists demo t1 t2 w1 w2,
    tweet_create now1 r1 w = (Ok (HttpResponseRedirect "/"), w1) /\
    tweet_create now2 r2 w1 = (Ok (HttpResponseRedirect "/"), w2) /\
    tweets_tweet (db w1) = tweets_tweet (db w) ++ [t1] /\
    tweets_tweet (db w2) = tweets_tweet (db w1) ++ [t2] /\
    username demo = "demo" /\
    Tweet_author (db w1) t1 = Some (Some demo) /\
    Tweet_author (db w2) t2 = Some (Some demo) /\
    User_objects_filter "demo" (db w1) = [demo] /\
    auth_user (db w2) = auth_user (db w1) /\
    (User_objects_filter "demo" (db w) = [] ->
     auth_user (db w1) = auth_user (db w) ++ [demo] /\
     password demo = "demo12345" /\ is_active demo = true) /\
    (User_objects_filter "demo" (db w) <> [] ->
     auth_user (db w1) = auth_user (db w)) /\
    (forall cs, (demo_count (db (run cs w)) <= 1)%nat).
Proof.
intros Hc Hm1 Hv1 Hm2 Hv2.
pose proof (handle_constraints (Create now1 r1) w Hc) as Hc1. simpl in Hc1.
destruct (tweet_create_valid now1 r1 w Hm1 Hv1 Hc)
  as (v1 & f1 & demo & users1 & _ & _ & Hd1 & E1).
rewrite E1 in Hv2, Hc1. simpl in Hv2, Hc1.
set (w1 := mkWorld (mkDatabase users1 (tweets_tweet (db w) ++ [posted now1 (db w) v1 f1 demo]))
             (messages w ++ [(SUCCESS, "Tweet posted successfully!")])) in *.
assert (Hf1 : User_objects_filter "demo" (db w1) = [demo]).
{ unfold User_objects_filter. simpl.
  destruct Hd1 as [[Hf ->]|(Hf & Hdemo & ->)]; [done|].
  unfold User_objects_filter in Hf. rewrite filter_app, Hf. simpl.
  rewrite filter_cons_True by (by rewrite Hdemo). done. }
assert (Hin : demo ∈ auth_user (db w1) /\ username demo = "demo").
{ assert (H : demo ∈ User_objects_filter "demo" (db w1))
    by (rewrite Hf1; apply list_elem_of_here).
  apply list_elem_of_filter in H. tauto. }
destruct Hin as [Hin Hname].
destruct (tweet_create_valid now2 r2 w1 Hm2 Hv2 Hc1)
  as (v2 & f2 & demo2 & users2 & _ & _ & Hd2 & E2).
assert (demo2 = demo /\ users2 = auth_user (db w1)) as [-> ->].
{ destruct Hd2 as [[Hf ->]|(Hf & _)]; rewrite Hf1 in Hf; [|done].
  by injection Hf as ->. }
exists demo, (posted now1 (db w) v1 f1 demo), (posted now2 (db w1) v2 f2 demo), w1.
eexists. split_and!.
- exact E1.
- exact E2.
- reflexivity.
- reflexivity.
- exact Hname.
- apply Tweet_author_found; [apply Hc1|done|done].
- apply Tweet_author_found; [apply Hc1|done|done].
- exact Hf1.
- reflexivity.
- intros Hnone. destruct Hd1 as [[Hf _]|(_ & Hdemo & Hu)]; [congruence|].
  rewrite Hdemo. split_and!; [|done|done]. simpl. by rewrite Hu, Hdemo.
- intros Hsome. destruct Hd1 as [[_ Hu]|(Hf & _)]; done.
- intros cs. by apply demo_count_le, run_constraints.
Qed.

Lemma demo_account_get_or_create_witness :
  db_constraints empty_db /\
  exists demo t1 t2 w1 w2,
    tweet_create 1 (mkHttpRequest "POST" [("text", "one")] [] None)
      (mkWorld empty_db []) = (Ok (HttpResponseRedirect "/"), w1) /\
    tweet_create 2 (mkHttpRequest "POST" [("text", "two")] [] None) w1 =
      (Ok (HttpResponseRedirect "/"), w2) /\
    tweets_tweet (db w1) = [] ++ [t1] /\
    tweets_tweet (db w2) = tweets_tweet (db w1) ++ [t2] /\
    username demo = "demo" /\
    Tweet_author (db w1) t1 = Some (Some demo) /\
    Tweet_author (db w2) t2 = Some (Some demo) /\
    User_objects_filter "demo" (db w1) = [demo] /\
    auth_user (db w2) = auth_user (db w1) /\
    (User_objects_filter "demo" empty_db = [] ->
     auth_user (db w1) = [] ++ [demo] /\
     password demo = "demo12345" /\ is_active demo = true) /\
    (User_objects_filter "demo" empty_db <> [] -> auth_user (db w1) = []) /\
    (forall cs, (demo_count (db (run cs (mkWorld empty_db []))) <= 1)%nat).
Proof.
assert (Hc : db_constraints empty_db) by (split; apply NoDup_nil_2).
split; [exact Hc|].
exact (demo_account_get_or_create 1
         (mkHttpRequest "POST" [("text", "one")] [] None) 2
         (mkHttpRequest "POST" [("text", "two")] [] None)
         (mkWorld empty_db []) Hc eq_refl eq_refl eq_refl eq_refl).
Defined.

(** ** C5: a successful create redirects and leaves one message *)

(** C5: a POST whose form is valid, on a database that satisfies its
    constraints, is answered with a redirect (status 302) to the list view,
    whose path is [/]; the form is not rendered; exactly one message, the
    success notice, is added to the message storage. *)
Theorem create_success_redirects now request w :
  db_constraints (db w) ->
  method request = "POST" ->
  TweetForm.is_valid (form_of (db w) request) = true ->
  exists response w',
    tweet_create now request w = (Ok response, w') /\
    response = HttpResponseRedirect "/" /\
    reverse "tweet_list" = Some "/" /\
    status_code response = 302%nat /\
    (forall template context, response <> TemplateResponse template context) /\
    messages w' = messages w ++ [(SUCCESS, "Tweet posted successfully!")].
Proof.
intros Hc Hm Hv.
destruct (tweet_create_valid now request w Hm Hv Hc)
  as (v & f & demo & users' & _ & _ & _ & ->).
eexists _, _. split_and!; done.
Qed.

Lemma create_success_redirects_witness :
  db_constraints empty_db /\
  exists response w',
    tweet_create 7 (mkHttpRequest "POST" [("text", "hello world")] [] None)
      (mkWorld empty_db []) = (Ok response, w') /\
    response = HttpResponseRedirect "/" /\
    reverse "tweet_list" = Some "/" /\
    status_code response = 302%nat /\
    (forall template context, response <> TemplateResponse template context) /\
    messages w' = [] ++ [(SUCCESS, "Tweet posted successfully!")].
Proof.
assert (Hc : db_constraints empty_db) by (split; apply NoDup_nil_2).
split; [exact Hc|].
exact (create_success_redirects 7
         (mkHttpRequest "POST" [("text", "hello world")] [] None)
         (mkWorld empty_db []) Hc eq_refl eq_refl).
Defined.

(** ** C6: a create that fails validation changes nothing *)

(** C6: a POST whose form is not valid is answered with the form template
    (status 200, no redirect) holding the bound form; the form has errors,
    each attached to a field of the form and each non-empty; and the world
    after the request, database and messages, is the world before it, so no
    tweet and no demo account is created. *)
Theorem create_invalid_changes_nothing now request w :
  method request = "POST" ->
  TweetForm.is_valid (form_of (db w) request) = false ->
  exists response,
    tweet_create now request w = (Ok response, w) /\
    response = TemplateResponse "tweets/tweet_form.html"
                 (ctx_form (form_of (db w) request)) /\
    status_code response = 200%nat /\
    TweetForm.errors (form_of (db w) request) <> [] /\
    Forall (fun fe : string * list ErrorCode =>
              fe.1 ∈ TweetForm.Meta_fields /\ fe.2 <> [])
           (TweetForm.errors (form_of (db w) request)).
Proof.
intros Hm Hv. eexists. split_and!; [by apply tweet_create_invalid|done|done| |].
- intros E. unfold TweetForm.is_valid in Hv. rewrite E in Hv.
  unfold form_of, TweetForm.bound in Hv.
  destruct (TweetForm.clean_fields _ _ _). done.
- unfold form_of. rewrite bound_unfold.
  destruct (forms_CharField_clean _ _ _ _) as [e|v] eqn:Ht;
    destruct (forms_ImageField_clean _ _ _) as [e'|f] eqn:Hi; simpl;
    repeat apply Forall_cons_2; try apply Forall_nil_2; simpl;
    (split; [by apply (bool_decide_unpack _)|]);
    eauto using forms_CharField_clean_inl, forms_ImageField_clean_inl.
Qed.

Lemma create_invalid_changes_nothing_witness :
  exists response,
    tweet_create 3 (mkHttpRequest "POST" [("text", "")] [] None)
      (mkWorld empty_db []) = (Ok response, mkWorld empty_db []) /\
    response = TemplateResponse "tweets/tweet_form.html"
                 (ctx_form (form_of empty_db
                              (mkHttpRequest "POST" [("text", "")] [] None))) /\
    status_code response = 200%nat /\
    TweetForm.errors (form_of empty_db (mkHttpRequest "POST" [("text", "")] [] None))
      <> [] /\
    Forall (fun fe : string * list ErrorCode =>
              fe.1 ∈ TweetForm.Meta_fields /\ fe.2 <> [])
           (TweetForm.errors
              (form_of empty_db (mkHttpRequest "POST" [("text", "")] [] None))).
Proof.
exact (create_invalid_changes_nothing 3
         (mkHttpRequest "POST" [("text", "")] [] None)
         (mkWorld empty_db []) eq_refl eq_refl).
Defined.

(** ** C7: [created_at] is set once *)

(** C7: a request to the application either leaves the table of tweets as it
    is or appends one row whose [created_at] is the time of that request;
    so a row that is in the table stays there, at its place and with all
    its fields, after any sequence of requests.  The change form of the
    administration site has no [created_at] field either. *)
Theorem created_at_never_modified c cs w i t :
  tweets_tweet (db w) !! i = Some t ->
  (exists new,
     tweets_tweet (db (handle c w).2) = tweets_tweet (db w) ++ new /\
     (new = [] \/
      exists now request t', c = Create now request /\ new = [t'] /\
                             created_at t' = Some now)) /\
  tweets_tweet (db (handle c w).2) !! i = Some t /\
  tweets_tweet (db (run cs w)) !! i = Some t /\
  "created_at" ∉ TweetAdmin.change_form_fields.
Proof.
intros Hi. split_and!.
- apply handle_tweets.
- destruct (handle_tweets c w) as (new & -> & _).
  rewrite lookup_app_l; [done|]. by apply lookup_lt_Some in Hi.
- destruct (run_tweets cs w) as (new & ->).
  rewrite lookup_app_l; [done|]. by apply lookup_lt_Some in Hi.
- by apply (bool_decide_unpack _).
Qed.

Lemma created_at_never_modified_witness :
  (exists new,
     tweets_tweet
       (db (handle (Create 9 (mkHttpRequest "POST" [("text", "later")] [] None))
              (mkWorld (mkDatabase [] [mkTweet (Some 1%nat) "first" None (Some 4) None])
                 [])).2) =
       [mkTweet (Some 1%nat) "first" None (Some 4) None] ++ new /\
     (new = [] \/
      exists now request t',
        Create 9 (mkHttpRequest "POST" [("text", "later")] [] None) = Create now request /\
        new = [t'] /\ created_at t' = Some now)) /\
  tweets_tweet
    (db (handle (Create 9 (mkHttpRequest "POST" [("text", "later")] [] None))
           (mkWorld (mkDatabase [] [mkTweet (Some 1%nat) "first" None (Some 4) None])
              [])).2) !! 0%nat =
    Some (mkTweet (Some 1%nat) "first" None (Some 4) None) /\
  tweets_tweet
    (db (run [Create 9 (mkHttpRequest "POST" [("text", "later")] [] None);
              GetList (mkHttpRequest "GET" [] [] None)]
           (mkWorld (mkDatabase [] [mkTweet (Some 1%nat) "first" None (Some 4) None])
              []))) !! 0%nat =
    Some (mkTweet (Some 1%nat) "first" None (Some 4) None) /\
  "created_at" ∉ TweetAdmin.change_form_fields.
Proof.
exact (created_at_never_modified
         (Create 9 (mkHttpRequest "POST" [("text", "later")] [] None))
         [Create 9 (mkHttpRequest "POST" [("text", "later")] [] None);
          GetList (mkHttpRequest "GET" [] [] None)]
         (mkWorld (mkDatabase [] [mkTweet (Some 1%nat) "first" None (Some 4) None]) [])
         0%nat (mkTweet (Some 1%nat) "first" None (Some 4) None) eq_refl).
Defined.

(** ** C8: the length bound and direct saves *)

Lemma replaced_row_elem i (t' : Tweet) (l : list Tweet) :
  existsb (has_pk i) l = true ->
  t' ∈ map (fun r => if has_pk i r then t' else r) l.
Proof.
induction l as [|r l IH]; simpl; [done|].
destruct (has_pk i r); simpl; intros H.
- apply list_elem_of_here.
- by apply list_elem_of_further, IH.
Qed.

Lemma Tweet_save_accepted now t w :
  db_accepts (db w) t = true ->
  exists saved w',
    Tweet_save now t w = (Ok saved, w') /\
    text saved = text t /\
    saved ∈ tweets_tweet (db w').
Proof.
unfold db_accepts. intros [Ha Hrow]%andb_true_iff.
unfold Tweet_save, bind at 1, get_db.
destruct (pk t) as [i|] eqn:Hpk.
- destruct (existsb (has_pk i) (tweets_tweet (db w))) eqn:Hex.
  + destruct (created_at t) as [c|] eqn:Hc; [|done]. rewrite Ha.
    eexists _, _. split_and!; [reflexivity|done|]. simpl.
    by apply replaced_row_elem.
  + rewrite Tweet_insert_unfold by done. eexists _, _. split_and!; [reflexivity|done|].
    simpl. apply elem_of_app. right. apply list_elem_of_here.
- rewrite Tweet_insert_unfold by done. eexists _, _. split_and!; [reflexivity|done|].
  simpl. apply elem_of_app. right. apply list_elem_of_here.
Qed.

Lemma Tweet_save_refused now t w :
  db_accepts (db w) t = false ->
  Tweet_save now t w = (Raise IntegrityError, w).
Proof.
unfold db_accepts. intros Hno.
unfold Tweet_save, Tweet_insert, bind, get_db, raise. cbv beta iota.
destruct (author_exists (db w) (author t)) eqn:Ha; simpl in Hno.
- destruct (pk t) as [i|]; [|done].
  destruct (created_at t); [done|].
  apply negb_false_iff in Hno. by rewrite Hno.
- destruct (pk t) as [i|]; [|cbv beta; by rewrite Ha].
  destruct (existsb (has_pk i) (tweets_tweet (db w))); [|cbv beta; by rewrite Ha].
  by destruct (created_at t).
Qed.

(** C8: for an instance whose text is longer than 280 characters,
    [full_clean] raises a validation error that carries the length error of
    the text field, whereas [save] runs no validator and does not look at
    the text: it stores the text as it is whenever the database accepts the
    row (an author that is null or exists, a [created_at] that is set when
    an existing row is updated), and raises the [IntegrityError] of the
    database, never a validation error, when it does not. *)
Theorem max_length_checked_by_full_clean_only d adding t now w :
  (280 < String.length (text t))%nat ->
  (exists errs,
     Tweet_full_clean d adding [] t = Raise (ValidationError errs) /\
     ("text", [max_length_exceeded]) ∈ errs) /\
  (if db_accepts (db w) t
   then exists saved w',
          Tweet_save now t w = (Ok saved, w') /\
          text saved = text t /\
          saved ∈ tweets_tweet (db w')
   else Tweet_save now t w = (Raise IntegrityError, w)).
Proof.
intros Hlen. split.
- unfold Tweet_full_clean, Tweet_clean_fields, Tweet_meta_fields.
  cbn [omap list_omap fst snd]. eval_in_names.
  cbn [Tweet_clean_field snd blank_of]. unfold model_CharField_clean.
  rewrite bool_decide_eq_false_2
    by (intros E; rewrite E in Hlen; simpl in Hlen; lia).
  apply Nat.ltb_lt in Hlen. rewrite Hlen.
  eexists. split; [reflexivity|]. apply list_elem_of_here.
- destruct (db_accepts (db w) t) eqn:Hacc.
  + by apply Tweet_save_accepted.
  + by apply Tweet_save_refused.
Qed.

Lemma max_length_checked_by_full_clean_only_witness :
  (280 < String.length (text (Tweet_new (PyStr.repeat "x" 281) None)))%nat /\
  (exists errs,
     Tweet_full_clean empty_db true [] (Tweet_new (PyStr.repeat "x" 281) None) =
       Raise (ValidationError errs) /\
     ("text", [max_length_exceeded]) ∈ errs) /\
  (exists saved w',
     Tweet_save 0 (Tweet_new (PyStr.repeat "x" 281) None) (mkWorld empty_db []) =
       (Ok saved, w') /\
     text saved = text (Tweet_new (PyStr.repeat "x" 281) None) /\
     saved ∈ tweets_tweet (db w')).
Proof.
assert (Hl : (280 < String.length (text (Tweet_new (PyStr.repeat "x" 281) None)))%nat)
  by (vm_compute; lia).
split; [exact Hl|].
exact (max_length_checked_by_full_clean_only empty_db true
         (Tweet_new (PyStr.repeat "x" 281) None) 0 (mkWorld empty_db []) Hl).
Defined.

(** ** C9: the string representation *)

(** C9: the string of a tweet is the user name of its author, or
    [Anonymous] exactly when it has no author, then a colon and a space,
    then the first 50 characters of the text (all of it when it has 50 or
    fewer), then three dots, whatever the length of the text. *)
Theorem tweet_str_format d t a :
  Tweet_author d t = Some a ->
  Tweet___str__ d t =
    Some (match a with Some u => username u | None => "Anonymous" end
          +:+ ": " +:+ PyStr.slice_to 50 (text t) +:+ "...") /\
  (a = None <-> author t = None) /\
  (exists rest, text t = PyStr.slice_to 50 (text t) +:+ rest) /\
  String.length (PyStr.slice_to 50 (text t)) = Nat.min 50 (String.length (text t)) /\
  ((String.length (text t) <= 50)%nat ->
   Tweet___str__ d t =
     Some (match a with Some u => username u | None => "Anonymous" end
           +:+ ": " +:+ text t +:+ "...")).
Proof.
intros Ha.
assert (Hstr : Tweet___str__ d t =
                 Some (match a with Some u => username u | None => "Anonymous" end
                       +:+ ": " +:+ PyStr.slice_to 50 (text t) +:+ "..."))
  by (unfold Tweet___str__; rewrite Ha; done).
split_and!; [done| |apply slice_to_prefix|apply length_slice_to|].
- unfold Tweet_author in Ha. destruct (author t) as [uid|].
  + destruct (filter _ _); [done|]. injection Ha as <-. done.
  + injection Ha as <-. done.
- intros Hshort. by rewrite Hstr, slice_to_short.
Qed.

Lemma tweet_str_format_witness :
  Tweet___str__
    (mkDatabase [mkUser 1 "testuser" "testpass123" true] [])
    (mkTweet (Some 1%nat) "Test tweet for string representation" None (Some 0)
       (Some 1%nat)) =
    Some "testuser: Test tweet for string representation..." /\
  Tweet___str__ empty_db (Tweet_new "Anonymous tweet" None) =
    Some "Anonymous: Anonymous tweet...".
Proof.
split.
- exact (proj1 (tweet_str_format
                  (mkDatabase [mkUser 1 "testuser" "testpass123" true] [])
                  (mkTweet (Some 1%nat) "Test tweet for string representation" None
                     (Some 0) (Some 1%nat))
                  (Some (mkUser 1 "testuser" "testpass123" true)) eq_refl)).
- exact (proj1 (tweet_str_format empty_db (Tweet_new "Anonymous tweet" None)
                  None eq_refl)).
Defined.

(** ** C10: the form cannot set the author *)

(** Two requests with the same method, the same value of [text] and the
    same file under [image] leave the same world. *)
Lemma tweet_create_world_ext now request request' w :
  method request = method request' ->
  dict_get (POST request) "text" = dict_get (POST request') "text" ->
  dict_get (FILES request) "image" = dict_get (FILES request') "image" ->
  (tweet_create now request w).2 = (tweet_create now request' w).2.
Proof.
intros Hm Ht Hi.
destruct (decide (method request = "POST")) as [Hp|Hp].
- assert (Hp' : method request' = "POST") by congruence.
  assert (Hv : TweetForm.is_valid (form_of (db w) request) =
               TweetForm.is_valid (form_of (db w) request')).
  { unfold form_of. rewrite !bound_unfold, Ht, Hi.
    by destruct (forms_CharField_clean _ _ _ _), (forms_ImageField_clean _ _ _). }
  destruct (TweetForm.is_valid (form_of (db w) request')) eqn:Hv'.
  + destruct (tweet_create_valid_cases now request w Hp Hv) as (v & f & Hv1 & Hf1 & H1).
    destruct (tweet_create_valid_cases now request' w Hp' Hv') as (v' & f' & Hv2 & Hf2 & H2).
    rewrite Ht, Hv2 in Hv1. rewrite Hi, Hf2 in Hf1.
    injection Hv1 as <-. injection Hf1 as <-.
    destruct (User_objects_filter "demo" (db w)) as [|u [|u' l]];
      cbv zeta in *; by rewrite H1, H2.
  + by rewrite !tweet_create_invalid.
- rewrite !tweet_create_not_post; [done|congruence|done].
Qed.

(** C10: the fields of the form are [text] and [image]; what a request does
    to the world depends on its method, on the submitted [text] and on the
    file submitted as [image], and on nothing else in the payload; every
    tweet the handler appends has the time of the request as [created_at]
    and the account named [demo] as author, so never a null author; the
    model itself validates and saves an instance without author. *)
Theorem create_author_is_demo now request request' w :
  db_constraints (db w) ->
  method request = method request' ->
  dict_get (POST request) "text" = dict_get (POST request') "text" ->
  dict_get (FILES request) "image" = dict_get (FILES request') "image" ->
  fst <$> TweetForm.fields = ["text"; "image"] /\
  (tweet_create now request w).2 = (tweet_create now request' w).2 /\
  (exists new,
     tweets_tweet (db (tweet_create now request w).2) = tweets_tweet (db w) ++ new /\
     Forall (fun t =>
               created_at t = Some now /\
               exists demo,
                 username demo = "demo" /\
                 author t = Some (user_id demo) /\
                 Tweet_author (db (tweet_create now request w).2) t = Some (Some demo))
            new) /\
  Tweet_full_clean (db w) true [] (Tweet_new "Anonymous tweet" None) = Ok tt /\
  (exists saved w',
     Tweet_objects_create now "Anonymous tweet" None w = (Ok saved, w') /\
     author saved = None /\
     tweets_tweet (db w') = tweets_tweet (db w) ++ [saved]).
Proof.
intros Hc Hm Ht Hi.
split_and!; [done|by apply tweet_create_world_ext| |done|];
  [|unfold Tweet_objects_create; rewrite Tweet_save_new by done; by eexists _, _].
pose proof (handle_constraints (Create now request) w Hc) as Hc'. simpl in Hc'.
destruct (tweet_create_effect now request w)
  as [->|(v & f & demo & users' & _ & _ & _ & Hd & E)].
- exists []. by rewrite app_nil_r.
- rewrite E in Hc' |- *. simpl in Hc' |- *. eexists [_]. split; [done|].
  apply Forall_cons_2; [|apply Forall_nil_2]. split; [done|].
  assert (Hin : demo ∈ users' /\ username demo = "demo").
  { destruct Hd as [[Hf ->]|(_ & -> & ->)].
    - assert (H : demo ∈ User_objects_filter "demo" (db w))
        by (rewrite Hf; apply list_elem_of_here).
      apply list_elem_of_filter in H. tauto.
    - split; [|done]. apply elem_of_app. right. apply list_elem_of_here. }
  destruct Hin as [Hin Hname].
  exists demo. split_and!; [done|done|].
  apply Tweet_author_found; [apply Hc'|done|done].
Qed.

Lemma create_author_is_demo_witness :
  db_constraints (mkDatabase [mkUser 7 "mallory" "secret" true] []) /\
  fst <$> TweetForm.fields = ["text"; "image"] /\
  (tweet_create 5
     (mkHttpRequest "POST" [("author", "7"); ("created_at", "1"); ("text", "hi")] []
        (Some 7%nat))
     (mkWorld (mkDatabase [mkUser 7 "mallory" "secret" true] []) [])).2 =
  (tweet_create 5 (mkHttpRequest "POST" [("text", "hi")] [] None)
     (mkWorld (mkDatabase [mkUser 7 "mallory" "secret" true] []) [])).2 /\
  (exists new,
     tweets_tweet
       (db (tweet_create 5
              (mkHttpRequest "POST" [("author", "7"); ("created_at", "1"); ("text", "hi")]
                 [] (Some 7%nat))
              (mkWorld (mkDatabase [mkUser 7 "mallory" "secret" true] []) [])).2) =
       [] ++ new /\
     Forall (fun t =>
               created_at t = Some 5 /\
               exists demo,
                 username demo = "demo" /\
                 author t = Some (user_id demo) /\
                 Tweet_author
                   (db (tweet_create 5
                          (mkHttpRequest "POST"
                             [("author", "7"); ("created_at", "1"); ("text", "hi")] []
                             (Some 7%nat))
                          (mkWorld (mkDatabase [mkUser 7 "mallory" "secret" true] []) [])).2)
                   t = Some (Some demo))
            new) /\
  Tweet_full_clean (mkDatabase [mkUser 7 "mallory" "secret" true] []) true []
    (Tweet_new "Anonymous tweet" None) = Ok tt /\
  (exists saved w',
     Tweet_objects_create 5 "Anonymous tweet" None
       (mkWorld (mkDatabase [mkUser 7 "mallory" "secret" true] []) []) = (Ok saved, w') /\
     author saved = None /\
     tweets_tweet (db w') = [] ++ [saved]).
Proof.
assert (Hc : db_constraints (mkDatabase [mkUser 7 "mallory" "secret" true] []))
  by (split; apply NoDup_singleton).
split; [exact Hc|].
exact (create_author_is_demo 5
         (mkHttpRequest "POST" [("author", "7"); ("created_at", "1"); ("text", "hi")] []
            (Some 7%nat))
         (mkHttpRequest "POST" [("text", "hi")] [] None)
         (mkWorld (mkDatabase [mkUser 7 "mallory" "secret" true] []) [])
         Hc eq_refl eq_refl eq_refl).
Defined.

(** * Further properties of the handlers, the form and the model *)

(** ** More on strings *)

Section StripFacts.
Import PyStr.

Lemma lstrip_first s a : first_char (lstrip s) = Some a -> isspace a = false.
Proof.
induction s as [|c s IH]; simpl; [done|].
destruct (isspace c) eqn:E; [done|]. simpl. by intros [= <-].
Qed.

Lemma rstrip_first_inv s a : first_char (rstrip s) = Some a -> first_char s = Some a.
Proof.
destruct s as [|c s]; simpl; [done|].
destruct (rstrip s); [destruct (isspace c)|]; simpl; done.
Qed.

Lemma rstrip_last s b : last_char (rstrip s) = Some b -> isspace b = false.
Proof.
induction s as [|c s IH]; simpl; [done|].
destruct (rstrip s) as [|c' r] eqn:E.
- destruct (isspace c) eqn:Ec; simpl; [done|]. by intros [= <-].
- intros H. apply IH. exact H.
Qed.

(** A stripped string has no whitespace at either end. *)
Lemma trimmed_strip s : trimmed (strip s) = true.
Proof.
unfold trimmed, strip.
destruct (first_char (rstrip (lstrip s))) as [a|] eqn:Ha; [|done].
destruct (last_char (rstrip (lstrip s))) as [b|] eqn:Hb; [|done].
apply rstrip_first_inv, lstrip_first in Ha. apply rstrip_last in Hb.
by rewrite Ha, Hb.
Qed.

End StripFacts.

(** ** One request, any request *)

Section EffectFacts.

Lemma forms_ImageField_clean_inr value f :
  forms_ImageField_clean false (Some 100%nat) value = inr f <->
  f = value /\
  match value with
  | None => True
  | Some u =>
      file_name u <> "" /\ (String.length (file_name u) <= 100)%nat /\
      file_size u <> 0%nat /\ file_is_image u = true /\
      file_extension_allowed u = true
  end.
Proof.
unfold forms_ImageField_clean. destruct value as [u|].
2: { split; [by intros [= <-]|by intros [-> _]]. }
destruct (100 <? String.length (file_name u))%nat eqn:Hl.
{ apply Nat.ltb_lt in Hl. split; [done|]. intros (_ & _ & ? & _). lia. }
apply Nat.ltb_ge in Hl.
case_bool_decide as Hn.
{ split; [done|]. by intros (_ & ? & _). }
destruct (file_size u =? 0)%nat eqn:Hs.
{ apply Nat.eqb_eq in Hs. split; [done|]. by intros (_ & _ & _ & ? & _). }
apply Nat.eqb_neq in Hs.
destruct (file_is_image u) eqn:Hi; simpl.
2: { split; [done|]. by intros (_ & _ & _ & _ & ? & _). }
destruct (file_extension_allowed u) eqn:He.
- split; [by intros [= <-]|by intros [-> _]].
- split; [done|]. by intros (_ & _ & _ & _ & _ & ?).
Qed.

(** What a call does to the world: nothing, or emptying the message
    storage (the list view), or the effect of a valid POST. *)
Lemma handle_effect c w :
  ((handle c w).2 = w \/ (handle c w).2 = mkWorld (db w) []) \/
  exists now request v f demo users',
    c = Create now request /\
    method request = "POST" /\
    forms_CharField_clean true (Some 280%nat) true (dict_get (POST request) "text") = inr v /\
    forms_ImageField_clean false (Some 100%nat) (dict_get (FILES request) "image") = inr f /\
    ((User_objects_filter "demo" (db w) = [demo] /\ users' = auth_user (db w)) \/
     (User_objects_filter "demo" (db w) = [] /\ demo = new_demo (db w) /\
      users' = auth_user (db w) ++ [demo])) /\
    (handle c w).2 =
      mkWorld (mkDatabase users' (tweets_tweet (db w) ++ [posted now (db w) v f demo]))
        (messages w ++ [success_notice]).
Proof.
destruct c as [request|now request]; simpl; [left; by right|].
destruct (tweet_create_effect now request w)
  as [->|(v & f & demo & users' & Hm & Ht & Hi & Hd & E)]; [left; by left|].
right. exists now, request, v, f, demo, users'. rewrite E. done.
Qed.

(** A property every call keeps holds after every run. *)
Lemma run_invariant (P : World -> Prop) :
  (forall c w, P w -> P (handle c w).2) ->
  forall cs w, P w -> P (run cs w).
Proof.
intros Hstep cs. induction cs as [|c cs IH]; intros w Hw; simpl; [done|].
by apply IH, Hstep.
Qed.

(** The account a valid POST uses is in the table of users afterwards, and
    the table of users only grows. *)
Lemma effect_demo (d : Database) demo (users' : list User) :
  ((User_objects_filter "demo" d = [demo] /\ users' = auth_user d) \/
   (User_objects_filter "demo" d = [] /\ demo = new_demo d /\
    users' = auth_user d ++ [demo])) ->
  demo ∈ users' /\ username demo = "demo" /\
  exists extra, users' = auth_user d ++ extra.
Proof.
intros [[Hf ->]|(_ & -> & ->)].
- assert (H : demo ∈ User_objects_filter "demo" d) by (rewrite Hf; apply list_elem_of_here).
  apply list_elem_of_filter in H as [? ?]. split_and!; [done|done|].
  exists []. by rewrite app_nil_r.
- split_and!; [|done|by eexists]. apply elem_of_app. right. apply list_elem_of_here.
Qed.

(** Whether a form is valid, and the instance it builds, do not depend on
    the database. *)
Lemma accepts_spec d request :
  accepts request = true <->
  method request = "POST" /\ TweetForm.is_valid (form_of d request) = true.
Proof.
unfold accepts, form_of. rewrite (bound_db_irrelevant empty_db d).
rewrite andb_true_iff. split; intros [Hm Hv]; split; try done.
- by apply String.eqb_eq.
- by apply String.eqb_eq.
Qed.

End EffectFacts.

(** ** The create handler: which answer, and when *)

(** X1: on a database that satisfies its constraints the create handler
    never raises; it answers with the redirect exactly when the request is
    a POST whose form is valid, and in every other case with the form
    template, status 200, leaving the world as it was. *)
Theorem create_response_kinds now request w :
  db_constraints (db w) ->
  exists response,
    (tweet_create now request w).1 = Ok response /\
    (response = HttpResponseRedirect "/" <-> accepts request = true) /\
    (accepts request = false ->
     (tweet_create now request w).2 = w /\
     status_code response = 200%nat /\
     exists form, response = TemplateResponse "tweets/tweet_form.html" (ctx_form form)).
Proof.
intros Hc. destruct (accepts request) eqn:Ha.
- apply (accepts_spec (db w)) in Ha as [Hm Hv].
  destruct (tweet_create_valid now request w Hm Hv Hc)
    as (v & f & demo & users' & _ & _ & _ & ->).
  eexists. split_and!; [reflexivity|done|done].
- destruct (decide (method request = "POST")) as [Hm|Hm].
  + destruct (TweetForm.is_valid (form_of (db w) request)) eqn:Hv.
    { assert (accepts request = true) by (by apply (accepts_spec (db w))). congruence. }
    rewrite tweet_create_invalid by done.
    eexists. split_and!; [reflexivity|done|]. intros _. split_and!; [done|done|by eexists].
  + rewrite tweet_create_not_post by done.
    eexists. split_and!; [reflexivity|done|]. intros _. split_and!; [done|done|by eexists].
Qed.

Lemma create_response_kinds_witness :
  db_constraints empty_db /\
  exists response,
    (tweet_create 0 (mkHttpRequest "PUT" [("text", "hello")] [] None)
       (mkWorld empty_db [])).1 = Ok response /\
    (response = HttpResponseRedirect "/" <->
     accepts (mkHttpRequest "PUT" [("text", "hello")] [] None) = true) /\
    (accepts (mkHttpRequest "PUT" [("text", "hello")] [] None) = false ->
     (tweet_create 0 (mkHttpRequest "PUT" [("text", "hello")] [] None)
        (mkWorld empty_db [])).2 = mkWorld empty_db [] /\
     status_code response = 200%nat /\
     exists form, response = TemplateResponse "tweets/tweet_form.html" (ctx_form form)).
Proof.
assert (Hc : db_constraints empty_db) by (split; apply NoDup_nil_2).
split; [exact Hc|].
exact (create_response_kinds 0 (mkHttpRequest "PUT" [("text", "hello")] [] None)
         (mkWorld empty_db []) Hc).
Defined.

(** ** The form: what it accepts *)

(** X2: the form is valid exactly when the request carries a [text] whose
    stripped value is not empty, has at most 280 characters and no null
    character, and either no file under [image] or a file with a name of 1
    to 100 characters, a size that is not zero, content the image library
    can read, and a name whose extension the image library lists.  Nothing
    else in the request and nothing in the database matters. *)
Theorem tweet_form_valid_iff d request :
  TweetForm.is_valid (form_of d request) = true <->
  (exists s, dict_get (POST request) "text" = Some s /\
             PyStr.strip s <> "" /\
             (String.length (PyStr.strip s) <= 280)%nat /\
             PyStr.has_nul s = false) /\
  match dict_get (FILES request) "image" with
  | None => True
  | Some u =>
      file_name u <> "" /\ (String.length (file_name u) <= 100)%nat /\
      file_size u <> 0%nat /\ file_is_image u = true /\
      file_extension_allowed u = true
  end.
Proof.
unfold form_of. rewrite is_valid_iff. split.
- intros (v & f & Ht & Hi & _).
  apply forms_CharField_clean_inr in Ht as (s & Hs & -> & Hne & Hlen & Hnul).
  apply forms_ImageField_clean_inr in Hi as [_ Hi].
  split; [|done]. exists s. by rewrite <- has_nul_strip.
- intros [(s & Hs & Hne & Hlen & Hnul) Hi].
  assert (Ht : forms_CharField_clean true (Some 280%nat) true
                 (dict_get (POST request) "text") = inr (PyStr.strip s)).
  { apply forms_CharField_clean_inr. exists s. by rewrite has_nul_strip. }
  assert (Hi' : forms_ImageField_clean false (Some 100%nat)
                  (dict_get (FILES request) "image")
                = inr (dict_get (FILES request) "image"))
    by (by apply forms_ImageField_clean_inr).
  exists (PyStr.strip s), (dict_get (FILES request) "image").
  split_and!; [done|done|]. by rewrite bound_unfold, Ht, Hi'.
Qed.

(** X3: a POST without [text], or with a [text] of whitespace only, gets
    the error [required] on the text field; the handler renders the form
    again and writes nothing. *)
Theorem create_blank_text_required now request w :
  method request = "POST" ->
  (dict_get (POST request) "text" = None \/
   exists s, dict_get (POST request) "text" = Some s /\ PyStr.strip s = "") ->
  ("text", [required]) ∈ TweetForm.errors (form_of (db w) request) /\
  tweet_create now request w =
    (Ok (TemplateResponse "tweets/tweet_form.html"
           (ctx_form (form_of (db w) request))), w).
Proof.
intros Hm Hblank.
assert (Ht : forms_CharField_clean true (Some 280%nat) true
               (dict_get (POST request) "text") = inl [required]).
{ unfold forms_CharField_clean, forms_CharField_to_python.
  destruct Hblank as [->|(s & -> & ->)]; by rewrite bool_decide_eq_true_2. }
assert (He : ("text", [required]) ∈ TweetForm.errors (form_of (db w) request)).
{ unfold form_of. rewrite bound_unfold, Ht.
  destruct (forms_ImageField_clean _ _ _); apply list_elem_of_here. }
split; [done|]. apply tweet_create_invalid; [done|].
unfold TweetForm.is_valid. destruct (TweetForm.errors _); [by apply elem_of_nil in He|].
by rewrite andb_false_r.
Qed.

Lemma create_blank_text_required_witness :
  ("text", [required])
    ∈ TweetForm.errors
        (form_of empty_db (mkHttpRequest "POST" [("text", "   ")] [] None)) /\
  tweet_create 1 (mkHttpRequest "POST" [("text", "   ")] [] None) (mkWorld empty_db []) =
    (Ok (TemplateResponse "tweets/tweet_form.html"
           (ctx_form (form_of empty_db (mkHttpRequest "POST" [("text", "   ")] [] None)))),
     mkWorld empty_db []).
Proof.
apply (create_blank_text_required 1 (mkHttpRequest "POST" [("text", "   ")] [] None)
         (mkWorld empty_db []) eq_refl).
right. exists "   ". split; reflexivity.
Defined.

(** X4: a POST with a file under [image] that has no name, a name longer
    than 100 characters, no content, or content that is not an image gets
    one error on the image field, whatever its text; the handler renders
    the form again and writes nothing. *)
Theorem create_bad_image_rejected now request w u :
  method request = "POST" ->
  dict_get (FILES request) "image" = Some u ->
  (file_name u = "" \/ (100 < String.length (file_name u))%nat \/
   file_size u = 0%nat \/ file_is_image u = false) ->
  (exists e, ("image", [e]) ∈ TweetForm.errors (form_of (db w) request)) /\
  tweet_create now request w =
    (Ok (TemplateResponse "tweets/tweet_form.html"
           (ctx_form (form_of (db w) request))), w).
Proof.
intros Hm Hu Hbad.
assert (Hi : exists e, forms_ImageField_clean false (Some 100%nat)
                         (dict_get (FILES request) "image") = inl [e]).
{ rewrite Hu. unfold forms_ImageField_clean.
  destruct (100 <? String.length (file_name u))%nat eqn:Hl; [by eexists|].
  apply Nat.ltb_ge in Hl. case_bool_decide as Hn; [by eexists|].
  destruct (file_size u =? 0)%nat eqn:Hs; [by eexists|].
  apply Nat.eqb_neq in Hs.
  destruct (file_is_image u) eqn:Him; [|by eexists].
  destruct Hbad as [?|[?|[?|?]]]; [done|lia|done|done]. }
destruct Hi as [e Hi].
assert (He : ("image", [e]) ∈ TweetForm.errors (form_of (db w) request)).
{ unfold form_of. rewrite bound_unfold, Hi.
  destruct (forms_CharField_clean _ _ _ _); simpl.
  - apply list_elem_of_further, list_elem_of_here.
  - apply list_elem_of_here. }
split; [by exists e|]. apply tweet_create_invalid; [done|].
unfold TweetForm.is_valid. destruct (TweetForm.errors _); [by apply elem_of_nil in He|].
by rewrite andb_false_r.
Qed.

Lemma create_bad_image_rejected_witness :
  (exists e, ("image", [e])
               ∈ TweetForm.errors
                   (form_of empty_db
                      (mkHttpRequest "POST" [("text", "Tweet with image")]
                         [("image", mkUploadedFile "notes.txt" 12 false false "notes.txt")] None))) /\
  tweet_create 1
    (mkHttpRequest "POST" [("text", "Tweet with image")]
       [("image", mkUploadedFile "notes.txt" 12 false false "notes.txt")] None) (mkWorld empty_db []) =
    (Ok (TemplateResponse "tweets/tweet_form.html"
           (ctx_form (form_of empty_db
                        (mkHttpRequest "POST" [("text", "Tweet with image")]
                           [("image", mkUploadedFile "notes.txt" 12 false false "notes.txt")] None)))),
     mkWorld empty_db []).
Proof.
apply (create_bad_image_rejected 1
         (mkHttpRequest "POST" [("text", "Tweet with image")]
            [("image", mkUploadedFile "notes.txt" 12 false false "notes.txt")] None)
         (mkWorld empty_db []) (mkUploadedFile "notes.txt" 12 false false "notes.txt") eq_refl eq_refl).
right. right. right. reflexivity.
Defined.

(** ** Uploaded images *)

(** X5: a valid POST hands the submitted file, when there is one, to the
    storage, and the new tweet records the name the file has there: the
    directory [tweets/] followed by the base name the storage chose, which
    need not be the submitted name; the tweet has no image otherwise.  The
    column [has_image] of the administration list is true for the new
    tweet exactly when a file was submitted. *)
Theorem create_image_stored now request w :
  db_constraints (db w) ->
  method request = "POST" ->
  TweetForm.is_valid (form_of (db w) request) = true ->
  exists w' t,
    tweet_create now request w = (Ok (HttpResponseRedirect "/"), w') /\
    tweets_tweet (db w') = tweets_tweet (db w) ++ [t] /\
    image t = (fun u => StoredFile ("tweets/" +:+ file_stored_as u))
                <$> dict_get (FILES request) "image" /\
    TweetAdmin.has_image t =
      match dict_get (FILES request) "image" with Some _ => true | None => false end.
Proof.
intros Hc Hm Hv.
destruct (tweet_create_valid now request w Hm Hv Hc)
  as (v & f & demo & users' & _ & Hi & _ & ->).
apply forms_ImageField_clean_inr in Hi as [-> _].
eexists _, _. split_and!; [done|done|done|].
by destruct (dict_get (FILES request) "image").
Qed.

Lemma create_image_stored_witness :
  db_constraints empty_db /\
  exists w' t,
    tweet_create 3
      (mkHttpRequest "POST" [("text", "Tweet with image")]
         [("image", mkUploadedFile "my photo.jpg" 825 true true "my_photo_x7Kq2Lp.jpg")]
         None)
      (mkWorld empty_db []) = (Ok (HttpResponseRedirect "/"), w') /\
    tweets_tweet (db w') = [] ++ [t] /\
    image t = Some (StoredFile "tweets/my_photo_x7Kq2Lp.jpg") /\
    TweetAdmin.has_image t = true.
Proof.
assert (Hc : db_constraints empty_db) by (split; apply NoDup_nil_2).
split; [exact Hc|].
exact (create_image_stored 3
         (mkHttpRequest "POST" [("text", "Tweet with image")]
            [("image", mkUploadedFile "my photo.jpg" 825 true true "my_photo_x7Kq2Lp.jpg")]
            None)
         (mkWorld empty_db []) Hc eq_refl eq_refl).
Defined.

(** ** What every run keeps *)

Section RunInvariants.

(** X6: the create handler only appends texts as the form leaves them: when
    every text in the table is not empty, has at most 280 characters, no
    null character and no whitespace at either end, the same holds after
    any sequence of requests. *)
Theorem run_keeps_texts_clean cs w :
  Forall text_clean (tweets_tweet (db w)) ->
  Forall text_clean (tweets_tweet (db (run cs w))).
Proof.
revert cs w. apply (run_invariant (fun w => Forall text_clean (tweets_tweet (db w)))).
intros c w Hw.
destruct (handle_effect c w)
  as [[->| ->]|(now & request & v & f & demo & users' & _ & _ & Ht & _ & _ & ->)]; [done|done|].
simpl. apply Forall_app. split; [done|].
apply Forall_cons_2; [|apply Forall_nil_2].
apply forms_CharField_clean_inr in Ht as (s & _ & -> & Hne & Hlen & Hnul).
unfold text_clean. simpl. split_and!; [done|done|done|apply trimmed_strip].
Qed.

Lemma run_keeps_texts_clean_witness :
  Forall text_clean
    (tweets_tweet
       (db (run [Create 1 (mkHttpRequest "POST" [("text", "  padded  ")] [] None);
                 Create 2 (mkHttpRequest "POST" [("text", "")] [] None)]
              (mkWorld empty_db [])))).
Proof.
apply (run_keeps_texts_clean
         [Create 1 (mkHttpRequest "POST" [("text", "  padded  ")] [] None);
          Create 2 (mkHttpRequest "POST" [("text", "")] [] None)]
         (mkWorld empty_db [])).
apply Forall_nil_2.
Defined.

End RunInvariants.

(** ** Model validation *)

Lemma Tweet_clean_fields_unfold d t :
  Tweet_clean_fields d [] t =
    match model_CharField_clean 280 false (text t) with
    | [] => []
    | e => [("text", e)]
    end ++
    match model_ForeignKey_clean d (author t) with
    | [] => []
    | e => [("author", e)]
    end.
Proof.
unfold Tweet_clean_fields, Tweet_meta_fields.
cbn [omap list_omap fst snd]. eval_in_names.
cbn [Tweet_clean_field snd blank_of].
by destruct (model_CharField_clean _ _ _), (model_ForeignKey_clean _ _).
Qed.

Lemma model_CharField_clean_ok s :
  model_CharField_clean 280 false s = [] <->
  s <> "" /\ (String.length s <= 280)%nat.
Proof.
unfold model_CharField_clean. case_bool_decide as Hs.
- split; [done|]. by intros [? _].
- destruct (280 <? String.length s)%nat eqn:Hl.
  + apply Nat.ltb_lt in Hl. split; [done|]. intros [_ ?]. lia.
  + apply Nat.ltb_ge in Hl. done.
Qed.

Lemma model_ForeignKey_clean_ok d a :
  model_ForeignKey_clean d a = [] <->
  match a with
  | None => True
  | Some uid => uid ∈ user_id <$> auth_user d
  end.
Proof.
unfold model_ForeignKey_clean. destruct a as [uid|]; [|done].
destruct (existsb _ _) eqn:E.
- split; [|done]. intros _. apply existsb_exists in E as (u & Hu & Hid).
  apply bool_decide_eq_true in Hid. subst uid.
  apply list_elem_of_fmap_2. by apply list_elem_of_In.
- split; [done|]. intros (u & -> & Hu)%list_elem_of_fmap.
  assert (existsb (fun u0 => bool_decide (user_id u0 = user_id u)) (auth_user d) = true);
    [|congruence].
  apply existsb_exists. exists u. split; [by apply list_elem_of_In|].
  by apply bool_decide_eq_true.
Qed.

Lemma Tweet_validate_unique_ok d adding t :
  Tweet_validate_unique d adding [] t = [] <->
  (adding = true -> pk t = None \/ pk t ∉ pk <$> tweets_tweet d).
Proof.
unfold Tweet_validate_unique. destruct adding; simpl; [|done].
destruct (pk t) as [i|] eqn:Hpk; [|split; [by left; done|done]].
destruct (existsb _ _) eqn:E.
- split; [done|]. intros H. destruct (H eq_refl) as [?|Hno]; [done|].
  exfalso. apply Hno. apply existsb_exists in E as (r & Hr & Hi).
  apply bool_decide_eq_true in Hi. rewrite <- Hi.
  apply list_elem_of_fmap_2. by apply list_elem_of_In.
- split; [|done]. intros _ _. right. intros (r & Hi & Hr)%list_elem_of_fmap.
  assert (existsb (has_pk i) (tweets_tweet d) = true); [|congruence].
  apply existsb_exists. exists r. split; [by apply list_elem_of_In|].
  by apply bool_decide_eq_true.
Qed.

Lemma Tweet_full_clean_ok d adding t :
  Tweet_full_clean d adding [] t = Ok tt <->
  (text t <> "" /\ (String.length (text t) <= 280)%nat) /\
  match author t with
  | None => True
  | Some uid => uid ∈ user_id <$> auth_user d
  end /\
  (adding = true -> pk t = None \/ pk t ∉ pk <$> tweets_tweet d).
Proof.
unfold Tweet_full_clean. rewrite Tweet_clean_fields_unfold.
rewrite <- model_CharField_clean_ok, <- model_ForeignKey_clean_ok,
  <- Tweet_validate_unique_ok.
destruct (model_CharField_clean _ _ _), (model_ForeignKey_clean _ _),
  (Tweet_validate_unique _ _ _ _); simpl;
  split; try done; by intros (? & ? & ?).
Qed.

(** X7: [full_clean] accepts an instance exactly when its text is not empty
    and has at most 280 characters (as it stands, nothing is stripped), its
    author is null or the key of an existing account, and, for an instance
    that is being added and has a key, no row of the table has that key
    (an instance loaded from the table is not checked against its own
    row).  An empty text raises with the error [blank] on the text field,
    the key of no account raises with the error [invalid] on the author
    field, and the key of a row on an instance being added raises with the
    error [unique] on the key. *)
Theorem full_clean_characterised d adding t :
  (Tweet_full_clean d adding [] t = Ok tt <->
   (text t <> "" /\ (String.length (text t) <= 280)%nat) /\
   match author t with
   | None => True
   | Some uid => uid ∈ user_id <$> auth_user d
   end /\
   (adding = true -> pk t = None \/ pk t ∉ pk <$> tweets_tweet d)) /\
  (text t = "" ->
   exists errs,
     Tweet_full_clean d adding [] t = Raise (ValidationError (("text", [blank]) :: errs))) /\
  (forall uid, author t = Some uid -> uid ∉ user_id <$> auth_user d ->
   exists errs, Tweet_full_clean d adding [] t = Raise (ValidationError errs) /\
                ("author", [invalid]) ∈ errs) /\
  (forall i, adding = true -> pk t = Some i -> Some i ∈ pk <$> tweets_tweet d ->
   exists errs, Tweet_full_clean d adding [] t = Raise (ValidationError errs) /\
                ("id", [unique]) ∈ errs).
Proof.
split_and!; [apply Tweet_full_clean_ok| | |].
- intros Hb. unfold Tweet_full_clean. rewrite Tweet_clean_fields_unfold, Hb. simpl.
  by eexists.
- intros uid Ha Hno. unfold Tweet_full_clean. rewrite Tweet_clean_fields_unfold, Ha.
  assert (Hfk : model_ForeignKey_clean d (Some uid) = [invalid]).
  { pose proof (model_ForeignKey_clean_ok d (Some uid)) as Hiff.
    unfold model_ForeignKey_clean in *. destruct (existsb _ _); [|done].
    exfalso. apply Hno, Hiff. done. }
  rewrite Hfk.
  destruct (model_CharField_clean _ _ _); simpl; eexists; (split; [reflexivity|]).
  + apply list_elem_of_here.
  + apply list_elem_of_further, list_elem_of_here.
- intros i -> Hpk Hin.
  assert (Hu : Tweet_validate_unique d true [] t = [("id", [unique])]).
  { pose proof (Tweet_validate_unique_ok d true t) as Hiff.
    unfold Tweet_validate_unique in *. simpl in *. rewrite Hpk in *.
    destruct (existsb _ _); [done|].
    destruct (proj1 Hiff eq_refl eq_refl) as [?|Hno]; [done|]. by destruct Hno. }
  unfold Tweet_full_clean. rewrite Hu.
  destruct (Tweet_clean_fields d [] t) as [|e errs] eqn:E.
  + eexists. split; [reflexivity|]. apply list_elem_of_here.
  + exists ((e :: errs) ++ [("id", [unique])]). split; [done|].
    apply elem_of_app. right. apply list_elem_of_here.
Qed.

Lemma full_clean_characterised_witness :
  (exists errs,
     Tweet_full_clean empty_db true [] (Tweet_new "" None) =
       Raise (ValidationError (("text", [blank]) :: errs))) /\
  (exists errs,
     Tweet_full_clean empty_db true [] (Tweet_new "orphan" (Some 9%nat)) =
       Raise (ValidationError errs) /\ ("author", [invalid]) ∈ errs) /\
  (exists errs,
     Tweet_full_clean (mkDatabase [] [mkTweet (Some 1%nat) "first" None (Some 5) None])
       true [] (mkTweet (Some 1%nat) "second" None None None) =
       Raise (ValidationError errs) /\ ("id", [unique]) ∈ errs).
Proof.
split_and!.
- exact (proj1 (proj2 (full_clean_characterised empty_db true (Tweet_new "" None))) eq_refl).
- apply (proj1 (proj2 (proj2 (full_clean_characterised empty_db true
                                (Tweet_new "orphan" (Some 9%nat))))) 9%nat eq_refl).
  simpl. apply not_elem_of_nil.
- apply (proj2 (proj2 (proj2 (full_clean_characterised
                                (mkDatabase [] [mkTweet (Some 1%nat) "first" None (Some 5) None])
                                true (mkTweet (Some 1%nat) "second" None None None))))
           1%nat eq_refl eq_refl).
  simpl. apply list_elem_of_here.
Defined.

(** X8: the handlers keep the table valid for the model: when every row,
    loaded from the table, passes [full_clean] against the database, every
    row still does after any sequence of requests, the rows the create
    handler appended included. *)
Theorem run_keeps_rows_valid cs w :
  Forall (fun t => Tweet_full_clean (db w) false [] t = Ok tt) (tweets_tweet (db w)) ->
  Forall (fun t => Tweet_full_clean (db (run cs w)) false [] t = Ok tt)
         (tweets_tweet (db (run cs w))).
Proof.
revert cs w.
apply (run_invariant
         (fun w => Forall (fun t => Tweet_full_clean (db w) false [] t = Ok tt)
                     (tweets_tweet (db w)))).
intros c w Hw.
destruct (handle_effect c w)
  as [[->| ->]|(now & request & v & f & demo & users' & _ & _ & Ht & _ & Hd & ->)]; [done|done|].
apply effect_demo in Hd as (Hin & _ & extra & ->).
simpl. apply Forall_app. split.
- eapply Forall_impl; [exact Hw|]. intros t. rewrite !Tweet_full_clean_ok. simpl.
  intros (Htx & Ha & _). split; [done|]. split; [|done].
  destruct (author t) as [uid|]; [|done].
  rewrite fmap_app. apply elem_of_app. by left.
- apply Forall_cons_2; [|apply Forall_nil_2].
  apply Tweet_full_clean_ok. simpl.
  apply forms_CharField_clean_inr in Ht as (s & _ & -> & Hne & Hlen & _).
  split; [done|]. split; [by apply list_elem_of_fmap_2|done].
Qed.

Lemma run_keeps_rows_valid_witness :
  Forall (fun t =>
            Tweet_full_clean
              (db (run [Create 1 (mkHttpRequest "POST" [("text", "one")] [] None)]
                     (mkWorld empty_db []))) false [] t = Ok tt)
    (tweets_tweet
       (db (run [Create 1 (mkHttpRequest "POST" [("text", "one")] [] None)]
              (mkWorld empty_db [])))).
Proof.
apply (run_keeps_rows_valid
         [Create 1 (mkHttpRequest "POST" [("text", "one")] [] None)]
         (mkWorld empty_db [])).
apply Forall_nil_2.
Defined.

(** ** Keys, authors, notices and accounts over a run *)

Lemma next_pk_not_in_table (l : list Tweet) : Some (next_pk (omap pk l)) ∉ pk <$> l.
Proof.
intros (t & Ht & Hin)%list_elem_of_fmap.
apply (next_pk_fresh (omap pk l)). apply list_elem_of_omap. by exists t.
Qed.

(** X9: primary keys stay unique: when every row has a key and no two rows
    share one, the same holds after any sequence of requests; a row the
    create handler appends gets a key larger than every key in use. *)
Theorem run_keeps_primary_keys cs w :
  pks_ok (db w) ->
  pks_ok (db (run cs w)) /\
  (forall c, exists new,
     tweets_tweet (db (handle c w).2) = tweets_tweet (db w) ++ new /\
     Forall (fun t => exists n, pk t = Some n /\
                       Forall (fun r => forall m, pk r = Some m -> (m < n)%nat)
                              (tweets_tweet (db w)))
            new).
Proof.
intros Hw. split.
- revert cs w Hw. apply (run_invariant (fun w => pks_ok (db w))).
  intros c w [Hnd Hall].
  destruct (handle_effect c w)
    as [[->| ->]|(now & request & v & f & demo & users' & _ & _ & _ & _ & _ & ->)]; [done|done|].
  split; simpl.
  + rewrite fmap_app. apply NoDup_app. split_and!; [done| |apply NoDup_singleton].
    intros x Hx ->%list_elem_of_singleton. by apply next_pk_not_in_table in Hx.
  + apply Forall_app. split; [done|]. apply Forall_cons_2; [|apply Forall_nil_2]. by eexists.
- intros c.
  destruct (handle_effect c w)
    as [[->| ->]|(now & request & v & f & demo & users' & _ & _ & _ & _ & _ & ->)].
  + exists []. by rewrite app_nil_r.
  + exists []. by rewrite app_nil_r.
  + eexists [_]. split; [done|]. apply Forall_cons_2; [|apply Forall_nil_2].
    eexists. split; [done|]. apply Forall_forall. intros r Hr m Hm.
    apply next_pk_gt, list_elem_of_omap. by exists r.
Qed.

Lemma run_keeps_primary_keys_witness :
  pks_ok (db (run [Create 1 (mkHttpRequest "POST" [("text", "one")] [] None);
                   Create 2 (mkHttpRequest "POST" [("text", "two")] [] None)]
                (mkWorld (mkDatabase [] [mkTweet (Some 4%nat) "old" None (Some 0) None])
                   []))).
Proof.
assert (H : pks_ok (mkDatabase [] [mkTweet (Some 4%nat) "old" None (Some 0) None])).
{ split; simpl.
  - apply NoDup_singleton.
  - apply Forall_cons_2; [by eexists|apply Forall_nil_2]. }
exact (proj1 (run_keeps_primary_keys
                [Create 1 (mkHttpRequest "POST" [("text", "one")] [] None);
                 Create 2 (mkHttpRequest "POST" [("text", "two")] [] None)]
                (mkWorld (mkDatabase [] [mkTweet (Some 4%nat) "old" None (Some 0) None]) [])
                H)).
Defined.

Lemma Tweet_str_defined d t :
  is_Some (Tweet___str__ d t) <->
  match author t with
  | None => True
  | Some uid => uid ∈ user_id <$> auth_user d
  end.
Proof.
unfold Tweet___str__, Tweet_author. destruct (author t) as [uid|]; simpl; [|by split].
destruct (filter _ _) as [|u l] eqn:E; simpl.
- split; [by intros [? ?]|]. intros (u & -> & Hu)%list_elem_of_fmap.
  by apply (filter_nil_not_elem_of _ _ _ E) in Hu.
- split; [|by eexists]. intros _.
  assert (Hu : u ∈ filter (fun u0 => user_id u0 = uid) (auth_user d))
    by (rewrite E; apply list_elem_of_here).
  apply list_elem_of_filter in Hu as [<- Hu]. by apply list_elem_of_fmap_2.
Qed.

(** X10: the string of a tweet stays defined: when [__str__] succeeds on
    every row (every author that is set refers to an account), it succeeds
    on every row after any sequence of requests. *)
Theorem run_keeps_str_defined cs w :
  Forall (fun t => is_Some (Tweet___str__ (db w) t)) (tweets_tweet (db w)) ->
  Forall (fun t => is_Some (Tweet___str__ (db (run cs w)) t))
         (tweets_tweet (db (run cs w))).
Proof.
revert cs w.
apply (run_invariant
         (fun w => Forall (fun t => is_Some (Tweet___str__ (db w) t))
                     (tweets_tweet (db w)))).
intros c w Hw.
destruct (handle_effect c w)
  as [[->| ->]|(now & request & v & f & demo & users' & _ & _ & _ & _ & Hd & ->)]; [done|done|].
apply effect_demo in Hd as (Hin & _ & extra & ->).
simpl. apply Forall_app. split.
- eapply Forall_impl; [exact Hw|]. intros t. rewrite !Tweet_str_defined. simpl.
  destruct (author t) as [uid|]; [|done].
  intros Hu. rewrite fmap_app. apply elem_of_app. by left.
- apply Forall_cons_2; [|apply Forall_nil_2].
  apply Tweet_str_defined. simpl. by apply list_elem_of_fmap_2.
Qed.

Lemma run_keeps_str_defined_witness :
  Forall (fun t =>
            is_Some
              (Tweet___str__
                 (db (run [Create 1 (mkHttpRequest "POST" [("text", "one")] [] None)]
                        (mkWorld empty_db []))) t))
    (tweets_tweet
       (db (run [Create 1 (mkHttpRequest "POST" [("text", "one")] [] None)]
              (mkWorld empty_db [])))).
Proof.
apply (run_keeps_str_defined
         [Create 1 (mkHttpRequest "POST" [("text", "one")] [] None)]
         (mkWorld empty_db [])).
apply Forall_nil_2.
Defined.

Lemma since_list_none cs : existsb is_list cs = false -> since_list cs = cs.
Proof. destruct cs as [|c cs]; simpl; [done|]. by intros ->. Qed.

(** What a call does on a database that satisfies its constraints: the
    list view empties the message storage, a valid POST appends one row and
    one success notice, any other request changes nothing. *)
Lemma handle_cases c w :
  db_constraints (db w) ->
  match is_list c, effective c with
  | true, _ => (handle c w).2 = mkWorld (db w) []
  | false, true =>
      exists t, tweets_tweet (db (handle c w).2) = tweets_tweet (db w) ++ [t] /\
                messages (handle c w).2 = messages w ++ [success_notice]
  | false, false => (handle c w).2 = w
  end.
Proof.
intros Hc. destruct c as [request|now request]; simpl; [done|].
destruct (accepts request) eqn:Ha.
- apply (accepts_spec (db w)) in Ha as [Hm Hv].
  destruct (tweet_create_valid now request w Hm Hv Hc)
    as (v & f & demo & users' & _ & _ & _ & ->).
  by eexists.
- destruct (decide (method request = "POST")) as [Hm|Hm];
    [|by rewrite tweet_create_not_post].
  destruct (TweetForm.is_valid (form_of (db w) request)) eqn:Hv;
    [|by rewrite tweet_create_invalid].
  assert (accepts request = true) by (by apply (accepts_spec (db w))). congruence.
Qed.

(** X11: the message storage holds one success notice for each tweet that
    was appended and not announced yet.  On a database that satisfies its
    constraints, any sequence of requests keeps the rows and appends one
    tweet for each valid POST; the list page shows the messages and so
    empties the storage, hence the storage ends with one success notice
    for each valid POST that came after the last request to the list view,
    and nothing else, preceded by what it held at the start only when no
    request went to the list view. *)
Theorem run_one_notice_per_tweet cs w :
  db_constraints (db w) ->
  exists new,
    tweets_tweet (db (run cs w)) = tweets_tweet (db w) ++ new /\
    length new = length (List.filter effective cs) /\
    messages (run cs w) =
      (if existsb is_list cs then [] else messages w) ++
      replicate (length (List.filter effective (since_list cs))) success_notice.
Proof.
revert w. induction cs as [|c cs IH]; intros w Hc.
- exists []. simpl. by rewrite !app_nil_r.
- destruct (IH (handle c w).2 (handle_constraints c w Hc)) as (new & Ht & Hl & Hm).
  pose proof (handle_cases c w Hc) as Hstep.
  cbn [run since_list]. rewrite Ht, Hm. cbn [existsb List.filter].
  destruct (is_list c) eqn:Hlist.
  + assert (He : effective c = false) by (by destruct c).
    rewrite He, Hstep. cbn [orb db messages]. exists new. split_and!; [done|done|].
    destruct (existsb is_list cs) eqn:Hs; [done|]. by rewrite since_list_none.
  + cbn [orb]. destruct (effective c) eqn:He.
    * destruct Hstep as (t & -> & ->). exists (t :: new).
      split_and!; [by rewrite <- app_assoc|by simpl; rewrite Hl|].
      destruct (existsb is_list cs) eqn:Hs; [done|].
      cbn [List.filter]. rewrite He, since_list_none by done.
      by rewrite <- app_assoc.
    * rewrite Hstep. exists new. split_and!; [done|done|].
      destruct (existsb is_list cs) eqn:Hs; [done|].
      cbn [List.filter]. by rewrite He, since_list_none.
Qed.

Lemma run_one_notice_per_tweet_witness :
  db_constraints empty_db /\
  exists new,
    tweets_tweet
      (db (run [Create 1 (mkHttpRequest "POST" [("text", "one")] [] None);
                GetList (mkHttpRequest "GET" [] [] None);
                Create 2 (mkHttpRequest "POST" [("text", "two")] [] None);
                Create 3 (mkHttpRequest "POST" [("text", "")] [] None)]
             (mkWorld empty_db [(SUCCESS, "earlier")]))) = [] ++ new /\
    length new = 2%nat /\
    messages
      (run [Create 1 (mkHttpRequest "POST" [("text", "one")] [] None);
            GetList (mkHttpRequest "GET" [] [] None);
            Create 2 (mkHttpRequest "POST" [("text", "two")] [] None);
            Create 3 (mkHttpRequest "POST" [("text", "")] [] None)]
         (mkWorld empty_db [(SUCCESS, "earlier")])) = [] ++ [success_notice].
Proof.
assert (Hc : db_constraints empty_db) by (split; apply NoDup_nil_2).
split; [exact Hc|].
exact (run_one_notice_per_tweet
         [Create 1 (mkHttpRequest "POST" [("text", "one")] [] None);
          GetList (mkHttpRequest "GET" [] [] None);
          Create 2 (mkHttpRequest "POST" [("text", "two")] [] None);
          Create 3 (mkHttpRequest "POST" [("text", "")] [] None)]
         (mkWorld empty_db [(SUCCESS, "earlier")]) Hc).
Defined.

(** X12: the only account the application ever creates is the demo account,
    once: after any sequence of requests the table of users is the initial
    one, or, when it had no account named [demo], the initial one followed
    by the demo account with the placeholder password. *)
Theorem run_creates_only_demo cs w :
  auth_user (db (run cs w)) = auth_user (db w) \/
  (User_objects_filter "demo" (db w) = [] /\
   auth_user (db (run cs w)) = auth_user (db w) ++ [new_demo (db w)]).
Proof.
revert w. induction cs as [|c cs IH]; intros w; simpl; [by left|].
destruct (handle_effect c w)
  as [[->| ->]|(now & request & v & f & demo & users' & _ & _ & _ & _ & Hd & E)];
  [apply IH|apply (IH (mkWorld (db w) []))|].
specialize (IH (handle c w).2). rewrite E in IH |- *. simpl in IH.
unfold User_objects_filter in *. simpl in IH.
destruct Hd as [[Hf ->]|(Hf & -> & ->)].
- destruct IH as [IH|[Hno _]]; [by left|]. by rewrite Hf in Hno.
- destruct IH as [IH|[Hno _]]; [by right|].
  rewrite filter_app, Hf in Hno. simpl in Hno.
  by rewrite filter_cons_True in Hno.
Qed.

(** ** A run as the list of its valid POSTs *)

Lemma handle_inert c w :
  is_list c = false -> effective c = false -> (handle c w).2 = w.
Proof.
destruct c as [request|now request]; simpl; [done|]. intros _ Ha.
destruct (decide (method request = "POST")) as [Hm|Hm];
  [|by rewrite tweet_create_not_post].
destruct (TweetForm.is_valid (form_of (db w) request)) eqn:Hv;
  [|by rewrite tweet_create_invalid].
assert (accepts request = true) by (by apply (accepts_spec (db w))). congruence.
Qed.

(** The database a call leaves does not depend on the message storage. *)
Lemma handle_db_messages c d m m' :
  db_constraints d ->
  db (handle c (mkWorld d m)).2 = db (handle c (mkWorld d m')).2.
Proof.
intros Hc. destruct c as [request|now request]; [done|].
destruct (accepts request) eqn:Ha.
- apply (accepts_spec d) in Ha as [Hm Hv]. simpl.
  destruct (tweet_create_valid now request (mkWorld d m) Hm Hv Hc)
    as (v & f & demo & users' & Ht & Hi & Hd & ->).
  destruct (tweet_create_valid now request (mkWorld d m') Hm Hv Hc)
    as (v' & f' & demo' & users'' & Ht' & Hi' & Hd' & ->).
  rewrite Ht in Ht'. injection Ht' as <-. rewrite Hi in Hi'. injection Hi' as <-.
  simpl in *.
  destruct Hd as [[Hf ->]|(Hf & -> & ->)], Hd' as [[Hf' ->]|(Hf' & -> & ->)];
    rewrite Hf in Hf'; [by injection Hf' as <-|done|done|done].
- by rewrite !(handle_inert (Create now request)) by done.
Qed.

Lemma handle_effective now request w :
  accepts request = true ->
  db_constraints (db w) ->
  exists t,
    tweets_tweet (db (tweet_create now request w).2) = tweets_tweet (db w) ++ [t] /\
    text t = text (TweetForm.instance (form_of empty_db request)) /\
    created_at t = Some now.
Proof.
intros Ha Hc. pose proof Ha as Ha'.
apply (accepts_spec (db w)) in Ha as [Hm Hv].
apply (accepts_spec empty_db) in Ha' as [_ Hv0].
destruct (tweet_create_valid now request w Hm Hv Hc)
  as (v & f & demo & users' & Ht & _ & _ & ->).
unfold form_of in Hv0. apply is_valid_iff in Hv0 as (v0 & f0 & Ht0 & _ & Hinst).
rewrite Ht in Ht0. injection Ht0 as <-.
unfold form_of. rewrite Hinst. by eexists.
Qed.

(** X13: on a database that satisfies its constraints, the texts and times
    in the table after a sequence of requests are those it had, followed,
    in order, by the cleaned text and the time of each POST whose form is
    valid; no other request leaves a row. *)
Theorem run_appends_valid_posts cs w :
  db_constraints (db w) ->
  (fun t => (text t, created_at t)) <$> tweets_tweet (db (run cs w)) =
    ((fun t => (text t, created_at t)) <$> tweets_tweet (db w)) ++ omap logged cs.
Proof.
revert w. induction cs as [|c cs IH]; intros w Hc; simpl; [by rewrite app_nil_r|].
rewrite (IH _ (handle_constraints c w Hc)).
destruct c as [request|now request]; simpl; [done|].
destruct (accepts request) eqn:Ha.
- destruct (handle_effective now request w Ha Hc) as (t & -> & Htx & Hca).
  rewrite fmap_app. simpl. rewrite Htx, Hca, <- app_assoc. done.
- pose proof (handle_inert (Create now request) w eq_refl Ha) as Hi. simpl in Hi.
  by rewrite Hi.
Qed.

Lemma run_appends_valid_posts_witness :
  (fun t => (text t, created_at t))
    <$> tweets_tweet
          (db (run [Create 1 (mkHttpRequest "POST" [("text", " one ")] [] None);
                    GetList (mkHttpRequest "GET" [] [] None);
                    Create 2 (mkHttpRequest "POST" [("text", "")] [] None);
                    Create 3 (mkHttpRequest "GET" [("text", "three")] [] None);
                    Create 4 (mkHttpRequest "POST" [("text", "four")] [] None)]
                 (mkWorld empty_db []))) =
  [] ++ [("one", Some 1); ("four", Some 4)].
Proof.
assert (Hc : db_constraints empty_db) by (split; apply NoDup_nil_2).
exact (run_appends_valid_posts
         [Create 1 (mkHttpRequest "POST" [("text", " one ")] [] None);
          GetList (mkHttpRequest "GET" [] [] None);
          Create 2 (mkHttpRequest "POST" [("text", "")] [] None);
          Create 3 (mkHttpRequest "GET" [("text", "three")] [] None);
          Create 4 (mkHttpRequest "POST" [("text", "four")] [] None)]
         (mkWorld empty_db []) Hc).
Defined.

(** X14: requests to the create view that are not POSTs, and POSTs whose
    form is not valid, can be dropped from a sequence of requests without
    changing the world it ends in.  Requests to the list view cannot: the
    list page empties the message storage; on a database that satisfies
    its constraints, dropping them as well leaves the database the
    sequence ends in unchanged. *)
Theorem run_skips_inert_requests cs w :
  db_constraints (db w) ->
  run cs w = run (List.filter (fun c => is_list c || effective c) cs) w /\
  db (run cs w) = db (run (List.filter effective cs) w).
Proof.
intros Hc. split.
- clear Hc. revert w. induction cs as [|c cs IH]; intros w; simpl; [done|].
  destruct (is_list c) eqn:Hl; simpl; [apply IH|].
  destruct (effective c) eqn:He; simpl; [apply IH|].
  rewrite (handle_inert c w Hl He). apply IH.
- assert (H : forall w', db w' = db w -> db (run cs w) = db (run (List.filter effective cs) w'));
    [|by apply H].
  revert w Hc. induction cs as [|c cs IH]; intros w Hc w' Hw; simpl; [done|].
  pose proof (handle_constraints c w Hc) as Hc'.
  pose proof (handle_cases c w Hc) as Hstep.
  destruct (is_list c) eqn:Hl.
  + assert (He : effective c = false) by (by destruct c).
    rewrite He. apply IH; [done|]. by rewrite Hstep.
  + destruct (effective c) eqn:He; simpl.
    * apply IH; [done|]. destruct w as [d m], w' as [d' m']. simpl in Hw. subst d'.
      by apply handle_db_messages.
    * rewrite Hstep. by apply IH.
Qed.

Lemma run_skips_inert_requests_witness :
  db_constraints empty_db /\
  run [Create 1 (mkHttpRequest "POST" [("text", "one")] [] None);
       Create 2 (mkHttpRequest "GET" [] [] None);
       GetList (mkHttpRequest "GET" [] [] None);
       Create 3 (mkHttpRequest "POST" [("text", "   ")] [] None)]
    (mkWorld empty_db []) =
  run (List.filter (fun c => is_list c || effective c)
         [Create 1 (mkHttpRequest "POST" [("text", "one")] [] None);
          Create 2 (mkHttpRequest "GET" [] [] None);
          GetList (mkHttpRequest "GET" [] [] None);
          Create 3 (mkHttpRequest "POST" [("text", "   ")] [] None)])
    (mkWorld empty_db []) /\
  db (run [Create 1 (mkHttpRequest "POST" [("text", "one")] [] None);
           Create 2 (mkHttpRequest "GET" [] [] None);
           GetList (mkHttpRequest "GET" [] [] None);
           Create 3 (mkHttpRequest "POST" [("text", "   ")] [] None)]
        (mkWorld empty_db [])) =
  db (run (List.filter effective
             [Create 1 (mkHttpRequest "POST" [("text", "one")] [] None);
              Create 2 (mkHttpRequest "GET" [] [] None);
              GetList (mkHttpRequest "GET" [] [] None);
              Create 3 (mkHttpRequest "POST" [("text", "   ")] [] None)])
        (mkWorld empty_db [])).
Proof.
assert (Hc : db_constraints empty_db) by (split; apply NoDup_nil_2).
split; [exact Hc|].
exact (run_skips_inert_requests
         [Create 1 (mkHttpRequest "POST" [("text", "one")] [] None);
          Create 2 (mkHttpRequest "GET" [] [] None);
          GetList (mkHttpRequest "GET" [] [] None);
          Create 3 (mkHttpRequest "POST" [("text", "   ")] [] None)]
         (mkWorld empty_db []) Hc).
Defined.

(** ** The listing when the clock moves forward *)

Lemma created_before_desc x y : created_before x y -> created_at_desc y x.
Proof.
unfold created_before, created_at_desc.
destruct (created_at x), (created_at y); try done. lia.
Qed.

Lemma created_before_not_desc x y : created_before x y -> ~ created_at_desc x y.
Proof.
unfold created_before, created_at_desc.
destruct (created_at x), (created_at y); try done. lia.
Qed.

Lemma ascending_reverse_sorted (l : list Tweet) :
  StronglySorted created_before l -> StronglySorted created_at_desc (list.reverse l).
Proof.
induction 1 as [|x l Hs IH Hall]; [constructor|].
rewrite reverse_cons. apply StronglySorted_app. split_and!.
- intros x1 x2 Hx1 ->%list_elem_of_singleton.
  apply (proj1 (elem_of_reverse _ _)) in Hx1.
  rewrite Forall_forall in Hall. by apply created_before_desc, Hall.
- done.
- repeat constructor.
Qed.

Lemma ascending_trichotomy (l : list Tweet) x y :
  StronglySorted created_before l -> x ∈ l -> y ∈ l ->
  x = y \/ created_before x y \/ created_before y x.
Proof.
induction 1 as [|z l Hs IH Hall]; [by intros ?%elem_of_nil|].
rewrite Forall_forall in Hall.
intros [->|Hx]%elem_of_cons [->|Hy]%elem_of_cons; auto.
Qed.

(** X15: when the rows of the table, in insertion order, have strictly
    increasing times, the list view shows them in exactly the reverse of
    that order, whatever the sorting does with equal keys. *)
Theorem listing_reverses_insertion request w :
  StronglySorted created_before (tweets_tweet (db w)) ->
  tweet_list request w =
    (Ok (TemplateResponse "tweets/tweet_list.html"
           (ctx_tweets (list.reverse (tweets_tweet (db w))))), mkWorld (db w) []).
Proof.
intros Hasc. rewrite tweet_list_unfold. do 4 f_equal. symmetry.
apply (StronglySorted_unique_strong created_at_desc).
- intros x1 x2 Hx1 Hx2 H12 H21.
  apply (proj1 (elem_of_reverse _ _)) in Hx1.
  rewrite Tweet_objects_all_perm in Hx2.
  destruct (ascending_trichotomy _ x1 x2 Hasc Hx1 Hx2) as [?|[Hb|Hb]]; [done| |];
    by apply created_before_not_desc in Hb.
- by apply ascending_reverse_sorted.
- apply Tweet_objects_all_sorted.
- by rewrite reverse_Permutation, Tweet_objects_all_perm.
Qed.

Lemma listing_reverses_insertion_witness :
  tweet_list (mkHttpRequest "GET" [] [] None)
    (mkWorld (mkDatabase []
                [ mkTweet (Some 1%nat) "First tweet" None (Some 10) None;
                  mkTweet (Some 2%nat) "Second tweet" None (Some 20) None ]) []) =
    (Ok (TemplateResponse "tweets/tweet_list.html"
           (ctx_tweets
              (list.reverse [ mkTweet (Some 1%nat) "First tweet" None (Some 10) None;
                         mkTweet (Some 2%nat) "Second tweet" None (Some 20) None ]))),
     mkWorld (mkDatabase []
                [ mkTweet (Some 1%nat) "First tweet" None (Some 10) None;
                  mkTweet (Some 2%nat) "Second tweet" None (Some 20) None ]) []).
Proof.
apply (listing_reverses_insertion (mkHttpRequest "GET" [] [] None)
         (mkWorld (mkDatabase []
                     [ mkTweet (Some 1%nat) "First tweet" None (Some 10) None;
                       mkTweet (Some 2%nat) "Second tweet" None (Some 20) None ]) [])).
simpl. repeat constructor.
Defined.

(** X16: a valid POST at a time later than the time of every row, followed
    by a request to the list view, shows the new tweet first, with the
    stripped text that was submitted, and after it the rows the table had
    before. *)
Theorem create_then_list_shows_first now request request' w :
  db_constraints (db w) ->
  method request = "POST" ->
  TweetForm.is_valid (form_of (db w) request) = true ->
  Forall (fun r => exists a, created_at r = Some a /\ a < now) (tweets_tweet (db w)) ->
  exists w' t rest T,
    tweet_create now request w = (Ok (HttpResponseRedirect "/"), w') /\
    tweet_list request' w' =
      (Ok (TemplateResponse "tweets/tweet_list.html" (ctx_tweets (t :: rest))),
       mkWorld (db w') []) /\
    dict_get (POST request) "text" = Some T /\
    text t = PyStr.strip T /\
    created_at t = Some now /\
    rest ≡ₚ tweets_tweet (db w).
Proof.
intros Hc Hm Hv Hold.
destruct (tweet_create_valid now request w Hm Hv Hc)
  as (v & f & demo & users' & Ht & _ & _ & E).
apply forms_CharField_clean_inr in Ht as (T & HT & -> & _).
set (t := posted now (db w) (PyStr.strip T) f demo) in *.
set (w' := mkWorld (mkDatabase users' (tweets_tweet (db w) ++ [t]))
             (messages w ++ [(SUCCESS, "Tweet posted successfully!")])) in *.
pose proof (Tweet_objects_all_sorted (db w')) as Hs.
assert (Hp : Tweet_objects_all (db w') ≡ₚ t :: tweets_tweet (db w)).
{ rewrite Tweet_objects_all_perm. unfold w'. simpl.
  symmetry. apply Permutation_cons_append. }
destruct (Tweet_objects_all (db w')) as [|x rest] eqn:El.
{ by apply Permutation_nil_cons in Hp. }
assert (x = t) as ->.
{ assert (Hx : x ∈ t :: tweets_tweet (db w)) by (rewrite <- Hp; apply list_elem_of_here).
  apply elem_of_cons in Hx as [?|Hx]; [done|]. exfalso.
  rewrite Forall_forall in Hold. destruct (Hold x Hx) as (a & Ha & Hlt).
  assert (Htin : t ∈ x :: rest) by (rewrite Hp; apply list_elem_of_here).
  apply elem_of_cons in Htin as [Heq|Htin].
  - subst x. simpl in Ha. injection Ha as ->. lia.
  - apply StronglySorted_inv in Hs as [_ Hall]. rewrite Forall_forall in Hall.
    specialize (Hall t Htin). unfold created_at_desc in Hall.
    rewrite Ha in Hall. simpl in Hall. lia. }
exists w', t, rest, T. split_and!; [done| |done|done|done|].
- by rewrite tweet_list_unfold, El.
- by apply Permutation_cons_inv in Hp.
Qed.

Lemma create_then_list_shows_first_witness :
  db_constraints (mkDatabase [] [mkTweet (Some 1%nat) "old" None (Some 5) None]) /\
  exists w' t rest T,
    tweet_create 9 (mkHttpRequest "POST" [("text", "hello world")] [] None)
      (mkWorld (mkDatabase [] [mkTweet (Some 1%nat) "old" None (Some 5) None]) []) =
      (Ok (HttpResponseRedirect "/"), w') /\
    tweet_list (mkHttpRequest "GET" [] [] None) w' =
      (Ok (TemplateResponse "tweets/tweet_list.html" (ctx_tweets (t :: rest))),
       mkWorld (db w') []) /\
    dict_get [("text", "hello world")] "text" = Some T /\
    text t = PyStr.strip T /\
    created_at t = Some 9 /\
    rest ≡ₚ [mkTweet (Some 1%nat) "old" None (Some 5) None].
Proof.
assert (Hc : db_constraints (mkDatabase [] [mkTweet (Some 1%nat) "old" None (Some 5) None]))
  by (split; apply NoDup_nil_2).
split; [exact Hc|].
apply (create_then_list_shows_first 9
         (mkHttpRequest "POST" [("text", "hello world")] [] None)
         (mkHttpRequest "GET" [] [] None)
         (mkWorld (mkDatabase [] [mkTweet (Some 1%nat) "old" None (Some 5) None]) [])
         Hc eq_refl eq_refl).
simpl. apply Forall_cons_2; [|apply Forall_nil_2]. exists 5. split; [reflexivity|lia].
Defined.

(** ** Saving a row again *)

Lemma map_replace_none i (t' : Tweet) (l : list Tweet) :
  (forall r, r ∈ l -> has_pk i r = false) ->
  map (fun r => if has_pk i r then t' else r) l = l.
Proof.
induction l as [|r l IH]; intros Hl; [done|]. simpl.
rewrite (Hl r) by apply list_elem_of_here. f_equal.
apply IH. intros r' Hr'. by apply Hl, list_elem_of_further.
Qed.

Lemma Tweet_save_existing now t w i c :
  pk t = Some i ->
  existsb (has_pk i) (tweets_tweet (db w)) = true ->
  created_at t = Some c ->
  author_exists (db w) (author t) = true ->
  Tweet_save now t w =
    (Ok (mkTweet (pk t) (text t) (commit_file <$> image t) (created_at t) (author t)),
     mkWorld (mkDatabase (auth_user (db w))
                (map (fun r => if has_pk i r
                               then mkTweet (pk t) (text t) (commit_file <$> image t)
                                      (created_at t) (author t)
                               else r)
                     (tweets_tweet (db w))))
       (messages w)).
Proof.
intros Hpk Hex Hc Ha. unfold Tweet_save, bind, get_db. cbv beta.
by rewrite Hpk, Hex, Hc, Ha.
Qed.

(** X17: [created_at] is stamped by the insertion alone.  When the author
    is null or the key of an existing account, a tweet that is created and
    then saved again later with another text keeps its key and the time of
    its creation, and the table holds one row for it, with the new text.
    When the author is the key of no account, the database refuses the
    insertion: the creation raises [IntegrityError] and writes nothing. *)
Theorem resave_keeps_created_at now1 now2 txt txt2 a w :
  if author_exists (db w) a then
    exists t1 w1 t2 w2,
      Tweet_objects_create now1 txt a w = (Ok t1, w1) /\
      Tweet_save now2 (mkTweet (pk t1) txt2 (image t1) (created_at t1) (author t1)) w1 =
        (Ok t2, w2) /\
      pk t2 = pk t1 /\
      created_at t2 = Some now1 /\
      text t2 = txt2 /\
      tweets_tweet (db w1) = tweets_tweet (db w) ++ [t1] /\
      tweets_tweet (db w2) = tweets_tweet (db w) ++ [t2]
  else Tweet_objects_create now1 txt a w = (Raise IntegrityError, w).
Proof.
destruct (author_exists (db w) a) eqn:Ha.
2: { apply Tweet_save_refused. unfold db_accepts. simpl. by rewrite Ha. }
set (n := next_pk (tweet_pks (db w))).
set (t1 := mkTweet (Some n) txt None (Some now1) a).
set (t2 := mkTweet (Some n) txt2 None (Some now1) a).
assert (Hold : forall r, r ∈ tweets_tweet (db w) -> has_pk n r = false).
{ intros r Hr. apply bool_decide_eq_false. intros Hpk.
  apply (next_pk_not_in_table (tweets_tweet (db w))).
  fold (tweet_pks (db w)). fold n. rewrite <- Hpk. by apply list_elem_of_fmap_2. }
assert (Hn : has_pk n t1 = true) by (by apply bool_decide_eq_true).
assert (Hex : existsb (has_pk n) (tweets_tweet (db w) ++ [t1]) = true).
{ rewrite existsb_app. apply orb_true_iff. right. simpl. by rewrite Hn. }
assert (Hmap : map (fun r => if has_pk n r then t2 else r) (tweets_tweet (db w) ++ [t1])
               = tweets_tweet (db w) ++ [t2]).
{ rewrite map_app. simpl. rewrite Hn. f_equal. by apply map_replace_none. }
exists t1, (mkWorld (mkDatabase (auth_user (db w)) (tweets_tweet (db w) ++ [t1]))
              (messages w)),
       t2, (mkWorld (mkDatabase (auth_user (db w)) (tweets_tweet (db w) ++ [t2]))
              (messages w)).
split_and!; try done.
- unfold Tweet_objects_create. by rewrite Tweet_save_new.
- rewrite (Tweet_save_existing now2 _ _ n now1); try done.
  rewrite <- Hmap. reflexivity.
Qed.
